(** * Verification of the game upload endpoint ([modal/upload.py])

    The endpoint receives a zipped static web game, validates it, and
    publishes every file of the archive to an object store.  This file embeds
    the function [upload] in Rocq and proves the properties its specification
    states about it.

    Python values are modelled as follows.
    - A [str] is a list of Unicode code points ([N]); the [str] methods the
      endpoint calls are the functions of [Module PyStr], and the two that
      depend on the Unicode character database ([str.isalnum], [str.lower])
      are in [Module Unicode].
    - [bytes] is a list of [Byte.byte].
    - A call that may raise gives an [outcome]: a value, or the exception
      raised, which carries the text [str(e)] that the endpoint formats into
      its answer.
    - The object store is the list of the objects committed to it, oldest
      first, with the number of [put_object] calls the client received.
    - What the endpoint prints is left out, but for the count of uploaded
      files that it prints after the loop. *)

From Stdlib Require Import Arith NArith Bool String Ascii Lia List.
Import ListNotations.

Open Scope string_scope.
Open Scope list_scope.

(** ** Python strings *)

Module PyStr.

Definition char := N.
Abbreviation str := (list char).

(** A literal of the source, as a [str] (the literals are ASCII). *)
Definition str_of (s : string) : str :=
  map N_of_ascii (list_ascii_of_string s).
Coercion str_of : string >-> str.

(** [s == t] *)
Fixpoint eqb (s t : str) : bool :=
  match s, t with
  | [], [] => true
  | a :: s', b :: t' => (a =? b)%N && eqb s' t'
  | _, _ => false
  end.

(** [s.startswith(p)] *)
Fixpoint startswith (s p : str) {struct p} : bool :=
  match p, s with
  | [], _ => true
  | _ :: _, [] => false
  | b :: p', a :: s' => (a =? b)%N && startswith s' p'
  end.

(** [s.endswith(p)] *)
Definition endswith (s p : str) : bool := startswith (rev s) (rev p).

(** [sub in s]: substring search. *)
Fixpoint contains (s sub : str) : bool :=
  startswith s sub ||
  match s with
  | [] => false
  | _ :: s' => contains s' sub
  end.

(** [s.split(sep, 1)] for a one-character separator: one part when [sep]
    does not occur in [s], otherwise the text before the first [sep] and
    the text after it. *)
Fixpoint split1 (s : str) (sep : char) : list str :=
  match s with
  | [] => [[]]
  | a :: s' =>
      if (a =? sep)%N then [[]; s']
      else match split1 s' sep with
           | x :: rest => (a :: x) :: rest
           | [] => [[a]]
           end
  end.

(** Indexing a list, [l[i]]; the endpoint only indexes where the element
    exists, and [[]] stands for the [IndexError] case. *)
Definition item (l : list str) (i : nat) : str := nth i l [].

(** [s.rstrip(chars)] for a one-character [chars]. *)
Fixpoint lstrip (s : str) (c : char) : str :=
  match s with
  | a :: s' => if (a =? c)%N then lstrip s' c else s
  | [] => []
  end.

Definition rstrip (s : str) (c : char) : str := rev (lstrip (rev s) c).

(** [not s]: a string is falsy when it is empty. *)
Definition falsy (s : str) : bool :=
  match s with [] => true | _ => false end.

End PyStr.

Import PyStr.

(** ** The Unicode character database

    [str.isalnum] and [str.lower] read the character database of the Python
    runtime.  The tables below are those of Unicode 14.0.0, written as
    ranges of code points; a later version of the database assigns further
    code points.  The proofs of the general properties below do not read
    the tables; the examples read the entries of ASCII, U+00E9 and U+65E5. *)

Module Unicode.

Definition in_ranges (t : list (N * N)) (c : char) : bool :=
  existsb (fun r => (fst r <=? c)%N && (c <=? snd r)%N) t.

Definition alnum_ranges : list (N * N) :=
  [ (48, 57); (65, 90); (97, 122); (170, 170); (178, 179); (181, 181);
    (185, 186); (188, 190); (192, 214); (216, 246); (248, 705); (710, 721);
    (736, 740); (748, 748); (750, 750); (880, 884); (886, 887); (890, 893);
    (895, 895); (902, 902); (904, 906); (908, 908); (910, 929); (931, 1013);
    (1015, 1153); (1162, 1327); (1329, 1366); (1369, 1369); (1376, 1416);
    (1488, 1514); (1519, 1522); (1568, 1610); (1632, 1641); (1646, 1647);
    (1649, 1747); (1749, 1749); (1765, 1766); (1774, 1788); (1791, 1791);
    (1808, 1808); (1810, 1839); (1869, 1957); (1969, 1969); (1984, 2026);
    (2036, 2037); (2042, 2042); (2048, 2069); (2074, 2074); (2084, 2084);
    (2088, 2088); (2112, 2136); (2144, 2154); (2160, 2183); (2185, 2190);
    (2208, 2249); (2308, 2361); (2365, 2365); (2384, 2384); (2392, 2401);
    (2406, 2415); (2417, 2432); (2437, 2444); (2447, 2448); (2451, 2472);
    (2474, 2480); (2482, 2482); (2486, 2489); (2493, 2493); (2510, 2510);
    (2524, 2525); (2527, 2529); (2534, 2545); (2548, 2553); (2556, 2556);
    (2565, 2570); (2575, 2576); (2579, 2600); (2602, 2608); (2610, 2611);
    (2613, 2614); (2616, 2617); (2649, 2652); (2654, 2654); (2662, 2671);
    (2674, 2676); (2693, 2701); (2703, 2705); (2707, 2728); (2730, 2736);
    (2738, 2739); (2741, 2745); (2749, 2749); (2768, 2768); (2784, 2785);
    (2790, 2799); (2809, 2809); (2821, 2828); (2831, 2832); (2835, 2856);
    (2858, 2864); (2866, 2867); (2869, 2873); (2877, 2877); (2908, 2909);
    (2911, 2913); (2918, 2927); (2929, 2935); (2947, 2947); (2949, 2954);
    (2958, 2960); (2962, 2965); (2969, 2970); (2972, 2972); (2974, 2975);
    (2979, 2980); (2984, 2986); (2990, 3001); (3024, 3024); (3046, 3058);
    (3077, 3084); (3086, 3088); (3090, 3112); (3114, 3129); (3133, 3133);
    (3160, 3162); (3165, 3165); (3168, 3169); (3174, 3183); (3192, 3198);
    (3200, 3200); (3205, 3212); (3214, 3216); (3218, 3240); (3242, 3251);
    (3253, 3257); (3261, 3261); (3293, 3294); (3296, 3297); (3302, 3311);
    (3313, 3314); (3332, 3340); (3342, 3344); (3346, 3386); (3389, 3389);
    (3406, 3406); (3412, 3414); (3416, 3425); (3430, 3448); (3450, 3455);
    (3461, 3478); (3482, 3505); (3507, 3515); (3517, 3517); (3520, 3526);
    (3558, 3567); (3585, 3632); (3634, 3635); (3648, 3654); (3664, 3673);
    (3713, 3714); (3716, 3716); (3718, 3722); (3724, 3747); (3749, 3749);
    (3751, 3760); (3762, 3763); (3773, 3773); (3776, 3780); (3782, 3782);
    (3792, 3801); (3804, 3807); (3840, 3840); (3872, 3891); (3904, 3911);
    (3913, 3948); (3976, 3980); (4096, 4138); (4159, 4169); (4176, 4181);
    (4186, 4189); (4193, 4193); (4197, 4198); (4206, 4208); (4213, 4225);
    (4238, 4238); (4240, 4249); (4256, 4293); (4295, 4295); (4301, 4301);
    (4304, 4346); (4348, 4680); (4682, 4685); (4688, 4694); (4696, 4696);
    (4698, 4701); (4704, 4744); (4746, 4749); (4752, 4784); (4786, 4789);
    (4792, 4798); (4800, 4800); (4802, 4805); (4808, 4822); (4824, 4880);
    (4882, 4885); (4888, 4954); (4969, 4988); (4992, 5007); (5024, 5109);
    (5112, 5117); (5121, 5740); (5743, 5759); (5761, 5786); (5792, 5866);
    (5870, 5880); (5888, 5905); (5919, 5937); (5952, 5969); (5984, 5996);
    (5998, 6000); (6016, 6067); (6103, 6103); (6108, 6108); (6112, 6121);
    (6128, 6137); (6160, 6169); (6176, 6264); (6272, 6276); (6279, 6312);
    (6314, 6314); (6320, 6389); (6400, 6430); (6470, 6509); (6512, 6516);
    (6528, 6571); (6576, 6601); (6608, 6618); (6656, 6678); (6688, 6740);
    (6784, 6793); (6800, 6809); (6823, 6823); (6917, 6963); (6981, 6988);
    (6992, 7001); (7043, 7072); (7086, 7141); (7168, 7203); (7232, 7241);
    (7245, 7293); (7296, 7304); (7312, 7354); (7357, 7359); (7401, 7404);
    (7406, 7411); (7413, 7414); (7418, 7418); (7424, 7615); (7680, 7957);
    (7960, 7965); (7968, 8005); (8008, 8013); (8016, 8023); (8025, 8025);
    (8027, 8027); (8029, 8029); (8031, 8061); (8064, 8116); (8118, 8124);
    (8126, 8126); (8130, 8132); (8134, 8140); (8144, 8147); (8150, 8155);
    (8160, 8172); (8178, 8180); (8182, 8188); (8304, 8305); (8308, 8313);
    (8319, 8329); (8336, 8348); (8450, 8450); (8455, 8455); (8458, 8467);
    (8469, 8469); (8473, 8477); (8484, 8484); (8486, 8486); (8488, 8488);
    (8490, 8493); (8495, 8505); (8508, 8511); (8517, 8521); (8526, 8526);
    (8528, 8585); (9312, 9371); (9450, 9471); (10102, 10131); (11264, 11492);
    (11499, 11502); (11506, 11507); (11517, 11517); (11520, 11557);
    (11559, 11559); (11565, 11565); (11568, 11623); (11631, 11631);
    (11648, 11670); (11680, 11686); (11688, 11694); (11696, 11702);
    (11704, 11710); (11712, 11718); (11720, 11726); (11728, 11734);
    (11736, 11742); (11823, 11823); (12293, 12295); (12321, 12329);
    (12337, 12341); (12344, 12348); (12353, 12438); (12445, 12447);
    (12449, 12538); (12540, 12543); (12549, 12591); (12593, 12686);
    (12690, 12693); (12704, 12735); (12784, 12799); (12832, 12841);
    (12872, 12879); (12881, 12895); (12928, 12937); (12977, 12991);
    (13312, 19903); (19968, 42124); (42192, 42237); (42240, 42508);
    (42512, 42539); (42560, 42606); (42623, 42653); (42656, 42735);
    (42775, 42783); (42786, 42888); (42891, 42954); (42960, 42961);
    (42963, 42963); (42965, 42969); (42994, 43009); (43011, 43013);
    (43015, 43018); (43020, 43042); (43056, 43061); (43072, 43123);
    (43138, 43187); (43216, 43225); (43250, 43255); (43259, 43259);
    (43261, 43262); (43264, 43301); (43312, 43334); (43360, 43388);
    (43396, 43442); (43471, 43481); (43488, 43492); (43494, 43518);
    (43520, 43560); (43584, 43586); (43588, 43595); (43600, 43609);
    (43616, 43638); (43642, 43642); (43646, 43695); (43697, 43697);
    (43701, 43702); (43705, 43709); (43712, 43712); (43714, 43714);
    (43739, 43741); (43744, 43754); (43762, 43764); (43777, 43782);
    (43785, 43790); (43793, 43798); (43808, 43814); (43816, 43822);
    (43824, 43866); (43868, 43881); (43888, 44002); (44016, 44025);
    (44032, 55203); (55216, 55238); (55243, 55291); (63744, 64109);
    (64112, 64217); (64256, 64262); (64275, 64279); (64285, 64285);
    (64287, 64296); (64298, 64310); (64312, 64316); (64318, 64318);
    (64320, 64321); (64323, 64324); (64326, 64433); (64467, 64829);
    (64848, 64911); (64914, 64967); (65008, 65019); (65136, 65140);
    (65142, 65276); (65296, 65305); (65313, 65338); (65345, 65370);
    (65382, 65470); (65474, 65479); (65482, 65487); (65490, 65495);
    (65498, 65500); (65536, 65547); (65549, 65574); (65576, 65594);
    (65596, 65597); (65599, 65613); (65616, 65629); (65664, 65786);
    (65799, 65843); (65856, 65912); (65930, 65931); (66176, 66204);
    (66208, 66256); (66273, 66299); (66304, 66339); (66349, 66378);
    (66384, 66421); (66432, 66461); (66464, 66499); (66504, 66511);
    (66513, 66517); (66560, 66717); (66720, 66729); (66736, 66771);
    (66776, 66811); (66816, 66855); (66864, 66915); (66928, 66938);
    (66940, 66954); (66956, 66962); (66964, 66965); (66967, 66977);
    (66979, 66993); (66995, 67001); (67003, 67004); (67072, 67382);
    (67392, 67413); (67424, 67431); (67456, 67461); (67463, 67504);
    (67506, 67514); (67584, 67589); (67592, 67592); (67594, 67637);
    (67639, 67640); (67644, 67644); (67647, 67669); (67672, 67702);
    (67705, 67742); (67751, 67759); (67808, 67826); (67828, 67829);
    (67835, 67867); (67872, 67897); (67968, 68023); (68028, 68047);
    (68050, 68096); (68112, 68115); (68117, 68119); (68121, 68149);
    (68160, 68168); (68192, 68222); (68224, 68255); (68288, 68295);
    (68297, 68324); (68331, 68335); (68352, 68405); (68416, 68437);
    (68440, 68466); (68472, 68497); (68521, 68527); (68608, 68680);
    (68736, 68786); (68800, 68850); (68858, 68899); (68912, 68921);
    (69216, 69246); (69248, 69289); (69296, 69297); (69376, 69415);
    (69424, 69445); (69457, 69460); (69488, 69505); (69552, 69579);
    (69600, 69622); (69635, 69687); (69714, 69743); (69745, 69746);
    (69749, 69749); (69763, 69807); (69840, 69864); (69872, 69881);
    (69891, 69926); (69942, 69951); (69956, 69956); (69959, 69959);
    (69968, 70002); (70006, 70006); (70019, 70066); (70081, 70084);
    (70096, 70106); (70108, 70108); (70113, 70132); (70144, 70161);
    (70163, 70187); (70272, 70278); (70280, 70280); (70282, 70285);
    (70287, 70301); (70303, 70312); (70320, 70366); (70384, 70393);
    (70405, 70412); (70415, 70416); (70419, 70440); (70442, 70448);
    (70450, 70451); (70453, 70457); (70461, 70461); (70480, 70480);
    (70493, 70497); (70656, 70708); (70727, 70730); (70736, 70745);
    (70751, 70753); (70784, 70831); (70852, 70853); (70855, 70855);
    (70864, 70873); (71040, 71086); (71128, 71131); (71168, 71215);
    (71236, 71236); (71248, 71257); (71296, 71338); (71352, 71352);
    (71360, 71369); (71424, 71450); (71472, 71483); (71488, 71494);
    (71680, 71723); (71840, 71922); (71935, 71942); (71945, 71945);
    (71948, 71955); (71957, 71958); (71960, 71983); (71999, 71999);
    (72001, 72001); (72016, 72025); (72096, 72103); (72106, 72144);
    (72161, 72161); (72163, 72163); (72192, 72192); (72203, 72242);
    (72250, 72250); (72272, 72272); (72284, 72329); (72349, 72349);
    (72368, 72440); (72704, 72712); (72714, 72750); (72768, 72768);
    (72784, 72812); (72818, 72847); (72960, 72966); (72968, 72969);
    (72971, 73008); (73030, 73030); (73040, 73049); (73056, 73061);
    (73063, 73064); (73066, 73097); (73112, 73112); (73120, 73129);
    (73440, 73458); (73648, 73648); (73664, 73684); (73728, 74649);
    (74752, 74862); (74880, 75075); (77712, 77808); (77824, 78894);
    (82944, 83526); (92160, 92728); (92736, 92766); (92768, 92777);
    (92784, 92862); (92864, 92873); (92880, 92909); (92928, 92975);
    (92992, 92995); (93008, 93017); (93019, 93025); (93027, 93047);
    (93053, 93071); (93760, 93846); (93952, 94026); (94032, 94032);
    (94099, 94111); (94176, 94177); (94179, 94179); (94208, 100343);
    (100352, 101589); (101632, 101640); (110576, 110579); (110581, 110587);
    (110589, 110590); (110592, 110882); (110928, 110930); (110948, 110951);
    (110960, 111355); (113664, 113770); (113776, 113788); (113792, 113800);
    (113808, 113817); (119520, 119539); (119648, 119672); (119808, 119892);
    (119894, 119964); (119966, 119967); (119970, 119970); (119973, 119974);
    (119977, 119980); (119982, 119993); (119995, 119995); (119997, 120003);
    (120005, 120069); (120071, 120074); (120077, 120084); (120086, 120092);
    (120094, 120121); (120123, 120126); (120128, 120132); (120134, 120134);
    (120138, 120144); (120146, 120485); (120488, 120512); (120514, 120538);
    (120540, 120570); (120572, 120596); (120598, 120628); (120630, 120654);
    (120656, 120686); (120688, 120712); (120714, 120744); (120746, 120770);
    (120772, 120779); (120782, 120831); (122624, 122654); (123136, 123180);
    (123191, 123197); (123200, 123209); (123214, 123214); (123536, 123565);
    (123584, 123627); (123632, 123641); (124896, 124902); (124904, 124907);
    (124909, 124910); (124912, 124926); (124928, 125124); (125127, 125135);
    (125184, 125251); (125259, 125259); (125264, 125273); (126065, 126123);
    (126125, 126127); (126129, 126132); (126209, 126253); (126255, 126269);
    (126464, 126467); (126469, 126495); (126497, 126498); (126500, 126500);
    (126503, 126503); (126505, 126514); (126516, 126519); (126521, 126521);
    (126523, 126523); (126530, 126530); (126535, 126535); (126537, 126537);
    (126539, 126539); (126541, 126543); (126545, 126546); (126548, 126548);
    (126551, 126551); (126553, 126553); (126555, 126555); (126557, 126557);
    (126559, 126559); (126561, 126562); (126564, 126564); (126567, 126570);
    (126572, 126578); (126580, 126583); (126585, 126588); (126590, 126590);
    (126592, 126601); (126603, 126619); (126625, 126627); (126629, 126633);
    (126635, 126651); (127232, 127244); (130032, 130041); (131072, 173791);
    (173824, 177976); (177984, 178205); (178208, 183969); (183984, 191456);
    (194560, 195101); (196608, 201546) ]%N.

Definition lowercase_runs : list (N * N * N * N) :=
  [ (65, 90, 1, 97); (192, 214, 1, 224); (216, 222, 1, 248);
    (256, 302, 2, 257); (306, 310, 2, 307); (313, 327, 2, 314);
    (330, 374, 2, 331); (376, 376, 1, 255); (377, 381, 2, 378);
    (385, 385, 1, 595); (386, 388, 2, 387); (390, 390, 1, 596);
    (391, 391, 1, 392); (393, 394, 1, 598); (395, 395, 1, 396);
    (398, 398, 1, 477); (399, 399, 1, 601); (400, 400, 1, 603);
    (401, 401, 1, 402); (403, 403, 1, 608); (404, 404, 1, 611);
    (406, 406, 1, 617); (407, 407, 1, 616); (408, 408, 1, 409);
    (412, 412, 1, 623); (413, 413, 1, 626); (415, 415, 1, 629);
    (416, 420, 2, 417); (422, 422, 1, 640); (423, 423, 1, 424);
    (425, 425, 1, 643); (428, 428, 1, 429); (430, 430, 1, 648);
    (431, 431, 1, 432); (433, 434, 1, 650); (435, 437, 2, 436);
    (439, 439, 1, 658); (440, 440, 1, 441); (444, 444, 1, 445);
    (452, 452, 1, 454); (453, 453, 1, 454); (455, 455, 1, 457);
    (456, 456, 1, 457); (458, 458, 1, 460); (459, 475, 2, 460);
    (478, 494, 2, 479); (497, 497, 1, 499); (498, 500, 2, 499);
    (502, 502, 1, 405); (503, 503, 1, 447); (504, 542, 2, 505);
    (544, 544, 1, 414); (546, 562, 2, 547); (570, 570, 1, 11365);
    (571, 571, 1, 572); (573, 573, 1, 410); (574, 574, 1, 11366);
    (577, 577, 1, 578); (579, 579, 1, 384); (580, 580, 1, 649);
    (581, 581, 1, 652); (582, 590, 2, 583); (880, 882, 2, 881);
    (886, 886, 1, 887); (895, 895, 1, 1011); (902, 902, 1, 940);
    (904, 906, 1, 941); (908, 908, 1, 972); (910, 911, 1, 973);
    (913, 929, 1, 945); (932, 939, 1, 964); (975, 975, 1, 983);
    (984, 1006, 2, 985); (1012, 1012, 1, 952); (1015, 1015, 1, 1016);
    (1017, 1017, 1, 1010); (1018, 1018, 1, 1019); (1021, 1023, 1, 891);
    (1024, 1039, 1, 1104); (1040, 1071, 1, 1072); (1120, 1152, 2, 1121);
    (1162, 1214, 2, 1163); (1216, 1216, 1, 1231); (1217, 1229, 2, 1218);
    (1232, 1326, 2, 1233); (1329, 1366, 1, 1377); (4256, 4293, 1, 11520);
    (4295, 4295, 1, 11559); (4301, 4301, 1, 11565); (5024, 5103, 1, 43888);
    (5104, 5109, 1, 5112); (7312, 7354, 1, 4304); (7357, 7359, 1, 4349);
    (7680, 7828, 2, 7681); (7838, 7838, 1, 223); (7840, 7934, 2, 7841);
    (7944, 7951, 1, 7936); (7960, 7965, 1, 7952); (7976, 7983, 1, 7968);
    (7992, 7999, 1, 7984); (8008, 8013, 1, 8000); (8025, 8031, 2, 8017);
    (8040, 8047, 1, 8032); (8072, 8079, 1, 8064); (8088, 8095, 1, 8080);
    (8104, 8111, 1, 8096); (8120, 8121, 1, 8112); (8122, 8123, 1, 8048);
    (8124, 8124, 1, 8115); (8136, 8139, 1, 8050); (8140, 8140, 1, 8131);
    (8152, 8153, 1, 8144); (8154, 8155, 1, 8054); (8168, 8169, 1, 8160);
    (8170, 8171, 1, 8058); (8172, 8172, 1, 8165); (8184, 8185, 1, 8056);
    (8186, 8187, 1, 8060); (8188, 8188, 1, 8179); (8486, 8486, 1, 969);
    (8490, 8490, 1, 107); (8491, 8491, 1, 229); (8498, 8498, 1, 8526);
    (8544, 8559, 1, 8560); (8579, 8579, 1, 8580); (9398, 9423, 1, 9424);
    (11264, 11311, 1, 11312); (11360, 11360, 1, 11361); (11362, 11362, 1, 619);
    (11363, 11363, 1, 7549); (11364, 11364, 1, 637); (11367, 11371, 2, 11368);
    (11373, 11373, 1, 593); (11374, 11374, 1, 625); (11375, 11375, 1, 592);
    (11376, 11376, 1, 594); (11378, 11378, 1, 11379); (11381, 11381, 1, 11382);
    (11390, 11391, 1, 575); (11392, 11490, 2, 11393); (11499, 11501, 2, 11500);
    (11506, 11506, 1, 11507); (42560, 42604, 2, 42561);
    (42624, 42650, 2, 42625); (42786, 42798, 2, 42787);
    (42802, 42862, 2, 42803); (42873, 42875, 2, 42874);
    (42877, 42877, 1, 7545); (42878, 42886, 2, 42879);
    (42891, 42891, 1, 42892); (42893, 42893, 1, 613); (42896, 42898, 2, 42897);
    (42902, 42920, 2, 42903); (42922, 42922, 1, 614); (42923, 42923, 1, 604);
    (42924, 42924, 1, 609); (42925, 42925, 1, 620); (42926, 42926, 1, 618);
    (42928, 42928, 1, 670); (42929, 42929, 1, 647); (42930, 42930, 1, 669);
    (42931, 42931, 1, 43859); (42932, 42946, 2, 42933);
    (42948, 42948, 1, 42900); (42949, 42949, 1, 642); (42950, 42950, 1, 7566);
    (42951, 42953, 2, 42952); (42960, 42960, 1, 42961);
    (42966, 42968, 2, 42967); (42997, 42997, 1, 42998);
    (65313, 65338, 1, 65345); (66560, 66599, 1, 66600);
    (66736, 66771, 1, 66776); (66928, 66964, 2, 66967);
    (66929, 66937, 2, 66968); (66941, 66953, 2, 66980);
    (66957, 66961, 2, 66996); (66965, 66965, 1, 67004);
    (68736, 68786, 1, 68800); (71840, 71871, 1, 71872);
    (93760, 93791, 1, 93792); (125184, 125217, 1, 125218) ]%N.

Definition cased_ranges : list (N * N) :=
  [ (65, 90); (97, 122); (170, 170); (181, 181); (186, 186); (192, 214);
    (216, 246); (248, 442); (444, 447); (452, 659); (661, 696); (704, 705);
    (736, 740); (837, 837); (880, 883); (886, 887); (890, 893); (895, 895);
    (902, 902); (904, 906); (908, 908); (910, 929); (931, 1013); (1015, 1153);
    (1162, 1327); (1329, 1366); (1376, 1416); (4256, 4293); (4295, 4295);
    (4301, 4301); (4304, 4346); (4349, 4351); (5024, 5109); (5112, 5117);
    (7296, 7304); (7312, 7354); (7357, 7359); (7424, 7615); (7680, 7957);
    (7960, 7965); (7968, 8005); (8008, 8013); (8016, 8023); (8025, 8025);
    (8027, 8027); (8029, 8029); (8031, 8061); (8064, 8116); (8118, 8124);
    (8126, 8126); (8130, 8132); (8134, 8140); (8144, 8147); (8150, 8155);
    (8160, 8172); (8178, 8180); (8182, 8188); (8305, 8305); (8319, 8319);
    (8336, 8348); (8450, 8450); (8455, 8455); (8458, 8467); (8469, 8469);
    (8473, 8477); (8484, 8484); (8486, 8486); (8488, 8488); (8490, 8493);
    (8495, 8500); (8505, 8505); (8508, 8511); (8517, 8521); (8526, 8526);
    (8544, 8575); (8579, 8580); (9398, 9449); (11264, 11492); (11499, 11502);
    (11506, 11507); (11520, 11557); (11559, 11559); (11565, 11565);
    (42560, 42605); (42624, 42653); (42786, 42887); (42891, 42894);
    (42896, 42954); (42960, 42961); (42963, 42963); (42965, 42969);
    (42997, 42998); (43000, 43002); (43824, 43866); (43868, 43880);
    (43888, 43967); (64256, 64262); (64275, 64279); (65313, 65338);
    (65345, 65370); (66560, 66639); (66736, 66771); (66776, 66811);
    (66928, 66938); (66940, 66954); (66956, 66962); (66964, 66965);
    (66967, 66977); (66979, 66993); (66995, 67001); (67003, 67004);
    (67456, 67456); (67459, 67461); (67463, 67504); (67506, 67514);
    (68736, 68786); (68800, 68850); (71840, 71903); (93760, 93823);
    (119808, 119892); (119894, 119964); (119966, 119967); (119970, 119970);
    (119973, 119974); (119977, 119980); (119982, 119993); (119995, 119995);
    (119997, 120003); (120005, 120069); (120071, 120074); (120077, 120084);
    (120086, 120092); (120094, 120121); (120123, 120126); (120128, 120132);
    (120134, 120134); (120138, 120144); (120146, 120485); (120488, 120512);
    (120514, 120538); (120540, 120570); (120572, 120596); (120598, 120628);
    (120630, 120654); (120656, 120686); (120688, 120712); (120714, 120744);
    (120746, 120770); (120772, 120779); (122624, 122633); (122635, 122654);
    (125184, 125251); (127280, 127305); (127312, 127337); (127344, 127369) ]%N.

Definition case_ignorable_ranges : list (N * N) :=
  [ (39, 39); (46, 46); (58, 58); (94, 94); (96, 96); (168, 168); (173, 173);
    (175, 175); (180, 180); (183, 184); (688, 879); (884, 885); (890, 890);
    (900, 901); (903, 903); (1155, 1161); (1369, 1369); (1375, 1375);
    (1425, 1469); (1471, 1471); (1473, 1474); (1476, 1477); (1479, 1479);
    (1524, 1524); (1536, 1541); (1552, 1562); (1564, 1564); (1600, 1600);
    (1611, 1631); (1648, 1648); (1750, 1757); (1759, 1768); (1770, 1773);
    (1807, 1807); (1809, 1809); (1840, 1866); (1958, 1968); (2027, 2037);
    (2042, 2042); (2045, 2045); (2070, 2093); (2137, 2139); (2184, 2184);
    (2192, 2193); (2200, 2207); (2249, 2306); (2362, 2362); (2364, 2364);
    (2369, 2376); (2381, 2381); (2385, 2391); (2402, 2403); (2417, 2417);
    (2433, 2433); (2492, 2492); (2497, 2500); (2509, 2509); (2530, 2531);
    (2558, 2558); (2561, 2562); (2620, 2620); (2625, 2626); (2631, 2632);
    (2635, 2637); (2641, 2641); (2672, 2673); (2677, 2677); (2689, 2690);
    (2748, 2748); (2753, 2757); (2759, 2760); (2765, 2765); (2786, 2787);
    (2810, 2815); (2817, 2817); (2876, 2876); (2879, 2879); (2881, 2884);
    (2893, 2893); (2901, 2902); (2914, 2915); (2946, 2946); (3008, 3008);
    (3021, 3021); (3072, 3072); (3076, 3076); (3132, 3132); (3134, 3136);
    (3142, 3144); (3146, 3149); (3157, 3158); (3170, 3171); (3201, 3201);
    (3260, 3260); (3263, 3263); (3270, 3270); (3276, 3277); (3298, 3299);
    (3328, 3329); (3387, 3388); (3393, 3396); (3405, 3405); (3426, 3427);
    (3457, 3457); (3530, 3530); (3538, 3540); (3542, 3542); (3633, 3633);
    (3636, 3642); (3654, 3662); (3761, 3761); (3764, 3772); (3782, 3782);
    (3784, 3789); (3864, 3865); (3893, 3893); (3895, 3895); (3897, 3897);
    (3953, 3966); (3968, 3972); (3974, 3975); (3981, 3991); (3993, 4028);
    (4038, 4038); (4141, 4144); (4146, 4151); (4153, 4154); (4157, 4158);
    (4184, 4185); (4190, 4192); (4209, 4212); (4226, 4226); (4229, 4230);
    (4237, 4237); (4253, 4253); (4348, 4348); (4957, 4959); (5906, 5908);
    (5938, 5939); (5970, 5971); (6002, 6003); (6068, 6069); (6071, 6077);
    (6086, 6086); (6089, 6099); (6103, 6103); (6109, 6109); (6155, 6159);
    (6211, 6211); (6277, 6278); (6313, 6313); (6432, 6434); (6439, 6440);
    (6450, 6450); (6457, 6459); (6679, 6680); (6683, 6683); (6742, 6742);
    (6744, 6750); (6752, 6752); (6754, 6754); (6757, 6764); (6771, 6780);
    (6783, 6783); (6823, 6823); (6832, 6862); (6912, 6915); (6964, 6964);
    (6966, 6970); (6972, 6972); (6978, 6978); (7019, 7027); (7040, 7041);
    (7074, 7077); (7080, 7081); (7083, 7085); (7142, 7142); (7144, 7145);
    (7149, 7149); (7151, 7153); (7212, 7219); (7222, 7223); (7288, 7293);
    (7376, 7378); (7380, 7392); (7394, 7400); (7405, 7405); (7412, 7412);
    (7416, 7417); (7468, 7530); (7544, 7544); (7579, 7679); (8125, 8125);
    (8127, 8129); (8141, 8143); (8157, 8159); (8173, 8175); (8189, 8190);
    (8203, 8207); (8216, 8217); (8228, 8228); (8231, 8231); (8234, 8238);
    (8288, 8292); (8294, 8303); (8305, 8305); (8319, 8319); (8336, 8348);
    (8400, 8432); (11388, 11389); (11503, 11505); (11631, 11631);
    (11647, 11647); (11744, 11775); (11823, 11823); (12293, 12293);
    (12330, 12333); (12337, 12341); (12347, 12347); (12441, 12446);
    (12540, 12542); (40981, 40981); (42232, 42237); (42508, 42508);
    (42607, 42610); (42612, 42621); (42623, 42623); (42652, 42655);
    (42736, 42737); (42752, 42785); (42864, 42864); (42888, 42890);
    (42994, 42996); (43000, 43001); (43010, 43010); (43014, 43014);
    (43019, 43019); (43045, 43046); (43052, 43052); (43204, 43205);
    (43232, 43249); (43263, 43263); (43302, 43309); (43335, 43345);
    (43392, 43394); (43443, 43443); (43446, 43449); (43452, 43453);
    (43471, 43471); (43493, 43494); (43561, 43566); (43569, 43570);
    (43573, 43574); (43587, 43587); (43596, 43596); (43632, 43632);
    (43644, 43644); (43696, 43696); (43698, 43700); (43703, 43704);
    (43710, 43711); (43713, 43713); (43741, 43741); (43756, 43757);
    (43763, 43764); (43766, 43766); (43867, 43871); (43881, 43883);
    (44005, 44005); (44008, 44008); (44013, 44013); (64286, 64286);
    (64434, 64450); (65024, 65039); (65043, 65043); (65056, 65071);
    (65106, 65106); (65109, 65109); (65279, 65279); (65287, 65287);
    (65294, 65294); (65306, 65306); (65342, 65342); (65344, 65344);
    (65392, 65392); (65438, 65439); (65507, 65507); (65529, 65531);
    (66045, 66045); (66272, 66272); (66422, 66426); (67456, 67461);
    (67463, 67504); (67506, 67514); (68097, 68099); (68101, 68102);
    (68108, 68111); (68152, 68154); (68159, 68159); (68325, 68326);
    (68900, 68903); (69291, 69292); (69446, 69456); (69506, 69509);
    (69633, 69633); (69688, 69702); (69744, 69744); (69747, 69748);
    (69759, 69761); (69811, 69814); (69817, 69818); (69821, 69821);
    (69826, 69826); (69837, 69837); (69888, 69890); (69927, 69931);
    (69933, 69940); (70003, 70003); (70016, 70017); (70070, 70078);
    (70089, 70092); (70095, 70095); (70191, 70193); (70196, 70196);
    (70198, 70199); (70206, 70206); (70367, 70367); (70371, 70378);
    (70400, 70401); (70459, 70460); (70464, 70464); (70502, 70508);
    (70512, 70516); (70712, 70719); (70722, 70724); (70726, 70726);
    (70750, 70750); (70835, 70840); (70842, 70842); (70847, 70848);
    (70850, 70851); (71090, 71093); (71100, 71101); (71103, 71104);
    (71132, 71133); (71219, 71226); (71229, 71229); (71231, 71232);
    (71339, 71339); (71341, 71341); (71344, 71349); (71351, 71351);
    (71453, 71455); (71458, 71461); (71463, 71467); (71727, 71735);
    (71737, 71738); (71995, 71996); (71998, 71998); (72003, 72003);
    (72148, 72151); (72154, 72155); (72160, 72160); (72193, 72202);
    (72243, 72248); (72251, 72254); (72263, 72263); (72273, 72278);
    (72281, 72283); (72330, 72342); (72344, 72345); (72752, 72758);
    (72760, 72765); (72767, 72767); (72850, 72871); (72874, 72880);
    (72882, 72883); (72885, 72886); (73009, 73014); (73018, 73018);
    (73020, 73021); (73023, 73029); (73031, 73031); (73104, 73105);
    (73109, 73109); (73111, 73111); (73459, 73460); (78896, 78904);
    (92912, 92916); (92976, 92982); (92992, 92995); (94031, 94031);
    (94095, 94111); (94176, 94177); (94179, 94180); (110576, 110579);
    (110581, 110587); (110589, 110590); (113821, 113822); (113824, 113827);
    (118528, 118573); (118576, 118598); (119143, 119145); (119155, 119170);
    (119173, 119179); (119210, 119213); (119362, 119364); (121344, 121398);
    (121403, 121452); (121461, 121461); (121476, 121476); (121499, 121503);
    (121505, 121519); (122880, 122886); (122888, 122904); (122907, 122913);
    (122915, 122916); (122918, 122922); (123184, 123197); (123566, 123566);
    (123628, 123631); (125136, 125142); (125252, 125259); (127995, 127999);
    (917505, 917505); (917536, 917631); (917760, 917999) ]%N.

(** [c.isalnum()] for a string [c] of one character: the character is a
    letter, a decimal, a digit or a numeric character. *)
Definition isalnum (c : char) : bool := in_ranges alnum_ranges c.

Definition cased (c : char) : bool := in_ranges cased_ranges c.
Definition case_ignorable (c : char) : bool := in_ranges case_ignorable_ranges c.

(** The lowercase mapping of one character.  A run [(lo, hi, step, to)]
    maps [lo], [lo + step], ..., [hi] to [to], [to + step], ...; U+0130 is
    the one character whose lowercase is two characters; every character
    outside the runs is its own lowercase. *)
Definition in_run (c : char) (r : N * N * N * N) : bool :=
  let '(lo, hi, step, _) := r in
  (lo <=? c)%N && (c <=? hi)%N && ((c - lo) mod step =? 0)%N.

Definition tolower_full (c : char) : str :=
  if (c =? 304)%N then [105; 775]%N
  else match find (in_run c) lowercase_runs with
       | Some (lo, _, _, to) => [to + (c - lo)]%N
       | None => [c]
       end.

Fixpoint dropwhile (p : char -> bool) (s : str) : str :=
  match s with
  | a :: s' => if p a then dropwhile p s' else s
  | [] => []
  end.

(** A capital sigma (U+03A3) lowers to the final form U+03C2 when a cased
    letter precedes it and none follows it, case-ignorable characters being
    skipped on both sides; [before] is the text before the sigma, nearest
    character first. *)
Definition final_sigma (before after : str) : bool :=
  match dropwhile case_ignorable before with
  | c :: _ => cased c
  | [] => false
  end &&
  match dropwhile case_ignorable after with
  | c :: _ => negb (cased c)
  | [] => true
  end.

Fixpoint lower_from (before s : str) : str :=
  match s with
  | [] => []
  | c :: s' =>
      (if (c =? 931)%N
       then [if final_sigma before s' then 962 else 963]%N
       else tolower_full c) ++ lower_from (c :: before) s'
  end.

(** [s.lower()] *)
Definition lower (s : str) : str := lower_from [] s.

End Unicode.

Import Unicode.

(** ** What the endpoint receives and what it talks to *)

Definition bytes := list Byte.byte.

(** The exception classes the [except] clauses of [upload] tell apart; each
    carries the text that [str(e)] gives. *)
Inductive exception :=
| KeyError (text : str)
| BadZipFile (text : str)
| OtherError (text : str).

Definition str_exc (e : exception) : str :=
  match e with KeyError t | BadZipFile t | OtherError t => t end.

(** [os.environ[name]] raises [KeyError(name)], whose text is the name in
    quotes. *)
Definition missing (name : string) : exception :=
  KeyError ("'" ++ name ++ "'")%string.

Inductive outcome (A : Type) :=
| Ok (a : A)
| Exc (e : exception).
Arguments Ok {A} a.
Arguments Exc {A} e.

(** One record of the archive, as [ZipFile.infolist()] lists it: its name
    and what [zf.open(info).read()] gives. *)
Record ZipInfo := { filename : str; content : outcome bytes }.

(** [info.is_dir()]: [self.filename.endswith('/')], as in the current
    releases of Python 3.12 (on Linux, where [os.path.altsep] is [None]).
    The two ways of writing the test differ on the empty name alone, where
    the older [self.filename[-1] == '/'] raises [IndexError]. *)
Definition is_dir (info : ZipInfo) : bool := endswith (filename info) "/".

(** The uploaded file [gameZip]: what [gameZip.read()] gives and, for the
    bytes read, what [zipfile.ZipFile] makes of them. *)
Inductive UploadFile :=
| ReadRaises (e : exception)
| ZipFile (zf : outcome (list ZipInfo)).

Definition namelist (infolist : list ZipInfo) : list str :=
  map filename infolist.

(** The two request headers the endpoint reads. *)
Record Headers := {
  x_upload_password : option str;
  x_game_name : option str
}.

(** [os.environ], at the names the endpoint reads. *)
Record Environ := {
  UPLOAD_PASSWORD : option str;
  R2_ACCOUNT_ID : option str;
  R2_ACCESS_KEY_ID : option str;
  R2_SECRET_ACCESS_KEY : option str;
  R2_BUCKET_NAME : option str;
  PUBLIC_GAME_URL_BASE : option str
}.

(** The storage service: whether [boto3.client] raises, and which calls of
    [put_object] raise ([put_raises n] is about the call made after [n]
    earlier calls of this client). *)
Record Boto3 := {
  client_raises : option exception;
  put_raises : nat -> option exception
}.

Record S3Object := {
  Bucket : str;
  Key : str;
  Body : bytes;
  ContentType : str
}.

(** The client and the bucket behind it: the objects committed, oldest
    first, and the number of [put_object] calls the client received. *)
Record S3 := {
  objects : list S3Object;
  put_calls : nat
}.

(** The bucket as a run finds it, with a client that has received no call. *)
Definition untouched (bucket : list S3Object) : S3 :=
  {| objects := bucket; put_calls := 0 |}.

(** [s3.put_object(...)]: a call that raises commits nothing. *)
Definition put_object (boto3 : Boto3) (s3 : S3) (o : S3Object)
    : outcome unit * S3 :=
  match put_raises boto3 (put_calls s3) with
  | Some e => (Exc e, {| objects := objects s3; put_calls := S (put_calls s3) |})
  | None => (Ok tt, {| objects := objects s3 ++ [o]; put_calls := S (put_calls s3) |})
  end.

(** What [upload] returns: a dict, a pair of a dict and a status code, or
    an exception that no [except] clause catches. *)
Definition dict := list (string * str).

Inductive retval :=
| Return (body : dict)
| ReturnStatus (body : dict) (status : N)
| Raise (e : exception).

(** A run of [upload]: its return value, the storage client after it, and
    the count that line 184 prints when the run reaches it. *)
Record Run := {
  response : retval;
  s3 : S3;
  printed_count : option nat
}.

(** ** The endpoint *)

Definition chr (a : ascii) : char := N_of_ascii a.

Definition error (text : str) (status : N) : retval :=
  ReturnStatus [("error"%string, text)] status.

(** Line 74: the storage-safe game name. *)
Definition sanitize (gameName : str) : str :=
  flat_map (fun c => if isalnum c || contains "-_" [c] then [c] else ("_" : str))
           gameName.

(** Line 96: the names that are neither macOS metadata nor directories. *)
Definition usable (name : str) : bool :=
  negb (startswith name "__MACOSX/") && negb (startswith name "._")
  && negb (endswith name "/").

Definition valid_files_of (all_names : list str) : list str :=
  filter usable all_names.

(** Lines 102-105 *)
Definition has_index (valid_files : list str) : bool :=
  existsb (fun name => endswith (lower name) "index.html") valid_files.

(** Lines 142-147: the records the upload loop passes over. *)
Definition skipped (info : ZipInfo) : bool :=
  startswith (filename info) "__MACOSX/" || startswith (filename info) "._"
  || is_dir info.

(** Lines 149-155: the path an entry is published under, [None] when the
    loop drops the entry ([continue]). *)
Definition entry_path_of (valid_files : list str) (filename : str) : option str :=
  if contains filename "/" then
    let first_part := item (split1 filename (chr "/")) 0 in
    if forallb (fun f => startswith f (first_part ++ "/")) valid_files then
      let entry_path := item (split1 filename (chr "/")) 1 in
      if falsy entry_path then None else Some entry_path
    else Some filename
  else Some filename.

(** Lines 160-172 *)
Definition content_type_of (entry_path : str) : str :=
  let lower_name := lower entry_path in
  if endswith lower_name ".html" then "text/html"
  else if endswith lower_name ".css" then "text/css"
  else if endswith lower_name ".js" then "application/javascript"
  else if endswith lower_name ".json" then "application/json"
  else if endswith lower_name ".wasm" then "application/wasm"
  else if endswith lower_name ".png" then "image/png"
  else if endswith lower_name ".jpg" then "image/jpeg"
  else if endswith lower_name ".jpeg" then "image/jpeg"
  else if endswith lower_name ".svg" then "image/svg+xml"
  else if endswith lower_name ".gif" then "image/gif"
  else if endswith lower_name ".ico" then "image/x-icon"
  else "application/octet-stream".

(** Line 174 *)
Definition key_of (safe_game_name entry_path : str) : str :=
  safe_game_name ++ "/" ++ entry_path.

(** Line 190 *)
Definition game_url_of (base safe_game_name : str) : str :=
  rstrip base (chr "/") ++ "/" ++ safe_game_name ++ "/index.html".

(** Lines 193-198 *)
Definition success (safe_game_name game_url : str) : dict :=
  [ ("message"%string, "Successfully uploaded game '" ++ safe_game_name ++ "'.");
    ("gameName"%string, safe_game_name);
    ("gameUrl"%string, game_url);
    ("status"%string, ("complete" : str)) ].

(** A stage of the endpoint either goes on with a value or returns. *)
Inductive flow (A : Type) :=
| Go (a : A)
| Done (r : retval).
Arguments Go {A} a.
Arguments Done {A} r.

Definition bind {A B : Type} (c : flow A) (k : A -> flow B) : flow B :=
  match c with
  | Go a => k a
  | Done r => Done r
  end.

Notation "x <- c ;; k" := (bind c (fun x => k))
  (at level 61, c at next level, right associativity).

(** Lines 54-73: the headers and the password; gives [gameName]. *)
Definition check_request (headers : Headers) (environ : Environ) : flow str :=
  match x_game_name headers with
  | None => Done (error "Bad Request: Missing X-Game-Name header." 400)
  | Some gameName =>
  match x_upload_password headers with
  | None => Done (error "Bad Request: Missing X-Upload-Password header." 400)
  | Some uploadPassword =>
  match UPLOAD_PASSWORD environ with
  | None => Done (error "Server configuration error: Missing upload credential." 500)
  | Some expected_password =>
      if falsy expected_password then
        Done (error "Server configuration error: Missing upload credential." 500)
      else if falsy uploadPassword
              || negb (PyStr.eqb uploadPassword expected_password) then
        Done (error "Unauthorized: Invalid password." 401)
      else if falsy gameName then
        Done (error "Bad Request: Missing gameName field." 400)
      else Go gameName
  end end end.

(** Lines 81-119: read the upload, open it as a zip and validate it; gives
    the records of the archive and [valid_files]. *)
Definition validate_zip (gameZip : UploadFile) : flow (list ZipInfo * list str) :=
  match gameZip with
  | ReadRaises e => Done (error ("Failed to read uploaded file: " ++ str_exc e) 400)
  | ZipFile (Exc (BadZipFile t)) => Done (error ("Invalid zip file format: " ++ t) 400)
  | ZipFile (Exc e) => Done (error ("Error validating zip file: " ++ str_exc e) 500)
  | ZipFile (Ok infolist) =>
      let all_names := namelist infolist in
      let valid_files := valid_files_of all_names in
      if match valid_files with [] => true | _ => false end then
        Done (error "Invalid zip file: Contains no usable files." 400)
      else if negb (has_index valid_files) then
        Done (error "Invalid zip structure: index.html not found at the root level."
                    400)
      else Go (infolist, valid_files)
  end.

(** Lines 121-135: build the storage client. *)
Definition init_client (environ : Environ) (boto3 : Boto3) : flow unit :=
  let credential_error e :=
    Done (error ("Server configuration error: Missing R2 credential ("
                 ++ str_exc e ++ ")") 500) in
  match R2_ACCOUNT_ID environ, R2_ACCESS_KEY_ID environ,
        R2_SECRET_ACCESS_KEY environ with
  | None, _, _ => credential_error (missing "R2_ACCOUNT_ID")
  | Some _, None, _ => credential_error (missing "R2_ACCESS_KEY_ID")
  | Some _, Some _, None => credential_error (missing "R2_SECRET_ACCESS_KEY")
  | Some _, Some _, Some _ =>
      match client_raises boto3 with
      | Some (KeyError t) => credential_error (KeyError t)
      | Some e => Done (error ("Failed to initialize storage client: " ++ str_exc e) 500)
      | None => Go tt
      end
  end.

(** Lines 141-182: the upload loop over the records of the archive; gives
    [uploaded_count], or the exception that ended the loop. *)
Fixpoint upload_loop (environ : Environ) (boto3 : Boto3) (safe_game_name : str)
    (valid_files : list str) (infolist : list ZipInfo) (s3 : S3)
    (uploaded_count : nat) : outcome nat * S3 :=
  match infolist with
  | [] => (Ok uploaded_count, s3)
  | info :: rest =>
      let continue := upload_loop environ boto3 safe_game_name valid_files rest in
      if skipped info then continue s3 uploaded_count
      else match entry_path_of valid_files (filename info) with
      | None => continue s3 uploaded_count
      | Some entry_path =>
      match content info with
      | Exc e => (Exc e, s3)
      | Ok content =>
      let content_type := content_type_of entry_path in
      let key := key_of safe_game_name entry_path in
      match R2_BUCKET_NAME environ with
      | None => (Exc (missing "R2_BUCKET_NAME"), s3)
      | Some bucket =>
      match put_object boto3 s3 {| Bucket := bucket; Key := key;
                                   Body := content; ContentType := content_type |} with
      | (Exc e, s3') => (Exc e, s3')
      | (Ok _, s3') => continue s3' (S uploaded_count)
      end end end end
  end.

(** Lines 137-198: the upload and the answer. *)
Definition publish (environ : Environ) (boto3 : Boto3) (safe_game_name : str)
    (valid_files : list str) (infolist : list ZipInfo) (bucket : list S3Object) : Run :=
  match upload_loop environ boto3 safe_game_name valid_files infolist
          (untouched bucket) 0 with
  | (Exc e, s3') =>
      {| response := error ("Error processing zip file: " ++ str_exc e) 500;
         s3 := s3'; printed_count := None |}
  | (Ok uploaded_count, s3') =>
      {| response :=
           match PUBLIC_GAME_URL_BASE environ with
           | None => Raise (missing "PUBLIC_GAME_URL_BASE")
           | Some base =>
               Return (success safe_game_name (game_url_of base safe_game_name))
           end;
         s3 := s3'; printed_count := Some uploaded_count |}
  end.

(** The stages before the first write: lines 54-135. *)
Definition prepare (headers : Headers) (environ : Environ) (gameZip : UploadFile)
    (boto3 : Boto3) : flow (str * list ZipInfo * list str) :=
  gameName <- check_request headers environ ;;
  let safe_game_name := sanitize gameName in
  zip <- validate_zip gameZip ;;
  _ <- init_client environ boto3 ;;
  Go (safe_game_name, fst zip, snd zip).

(** The endpoint, run against a bucket that holds [bucket]. *)
Definition upload (headers : Headers) (environ : Environ) (gameZip : UploadFile)
    (boto3 : Boto3) (bucket : list S3Object) : Run :=
  match prepare headers environ gameZip boto3 with
  | Done r =>
      {| response := r; s3 := untouched bucket; printed_count := None |}
  | Go (safe_game_name, infolist, valid_files) =>
      publish environ boto3 safe_game_name valid_files infolist bucket
  end.

(** ** Notions the properties are stated with *)

(** [path.split('/', 1)[0]] *)
Definition first_segment (path : str) : str := item (split1 path (chr "/")) 0.

(** The test of lines 150-152: the entry has a separator and every valid
    file starts with the entry's first segment and a separator. *)
Definition root_stripped (valid_files : list str) (filename : str) : bool :=
  contains filename "/"
  && forallb (fun f => startswith f (first_segment filename ++ "/")) valid_files.

(** The request passes the checks of lines 54-73 and names [gameName]. *)
Definition authorized (headers : Headers) (environ : Environ) (gameName : str) : Prop :=
  x_game_name headers = Some gameName /\ gameName <> [] /\
  exists password,
    x_upload_password headers = Some password /\
    UPLOAD_PASSWORD environ = Some password /\ password <> [].

(** The upload is a zip archive with the records [infolist] that passes
    the validation of lines 96-110. *)
Definition valid_zip (gameZip : UploadFile) (infolist : list ZipInfo) : Prop :=
  gameZip = ZipFile (Ok infolist) /\
  valid_files_of (namelist infolist) <> [] /\
  has_index (valid_files_of (namelist infolist)) = true.

(** The storage client can be built: the three credentials are set and
    [boto3.client] does not raise. *)
Definition client_ready (environ : Environ) (boto3 : Boto3) : Prop :=
  R2_ACCOUNT_ID environ <> None /\ R2_ACCESS_KEY_ID environ <> None /\
  R2_SECRET_ACCESS_KEY environ <> None /\ client_raises boto3 = None.

(** What one turn of the loop prepares before it calls [put_object] (lines
    142-174): nothing for a record it passes over, the exception that ends
    the loop, or the object to put. *)
Definition planned (environ : Environ) (safe_game_name : str)
    (valid_files : list str) (info : ZipInfo) : list (outcome S3Object) :=
  if skipped info then []
  else match entry_path_of valid_files (filename info) with
  | None => []
  | Some entry_path =>
  match content info, R2_BUCKET_NAME environ with
  | Exc e, _ => [Exc e]
  | Ok _, None => [Exc (missing "R2_BUCKET_NAME")]
  | Ok body, Some bucket =>
      [Ok {| Bucket := bucket; Key := key_of safe_game_name entry_path;
             Body := body; ContentType := content_type_of entry_path |}]
  end end.

Definition plan (environ : Environ) (safe_game_name : str)
    (valid_files : list str) (infolist : list ZipInfo) : list (outcome S3Object) :=
  flat_map (planned environ safe_game_name valid_files) infolist.

(** The loop, turn by turn over what it prepared. *)
Fixpoint run_plan (boto3 : Boto3) (todo : list (outcome S3Object)) (s3 : S3)
    (uploaded_count : nat) : outcome nat * S3 :=
  match todo with
  | [] => (Ok uploaded_count, s3)
  | Exc e :: _ => (Exc e, s3)
  | Ok o :: rest =>
      match put_object boto3 s3 o with
      | (Exc e, s3') => (Exc e, s3')
      | (Ok _, s3') => run_plan boto3 rest s3' (S uploaded_count)
      end
  end.

(** The character test of line 74. *)
Definition kept (c : char) : bool :=
  isalnum c || (c =? chr "-")%N || (c =? chr "_")%N.

(** The table of content types, by the ending of the lowercased path. *)
Definition content_types : list (string * string) :=
  [ (".html", "text/html"); (".css", "text/css");
    (".js", "application/javascript"); (".json", "application/json");
    (".wasm", "application/wasm"); (".png", "image/png");
    (".jpg", "image/jpeg"); (".jpeg", "image/jpeg");
    (".svg", "image/svg+xml"); (".gif", "image/gif");
    (".ico", "image/x-icon") ].

Definition dict_get (key : string) (d : dict) : option str :=
  option_map snd (find (fun kv => String.eqb (fst kv) key) d).

(** The rules as the specification words them, to compare the code with. *)
Module Spec.

(** The final segment of a path: the text after its last separator. *)
Definition final_segment (path : str) : str :=
  rev (first_segment (rev path)).

(** The filtering rule of the specification: the path starts with the
    macOS metadata folder, or its final segment starts with the macOS
    metadata file prefix, or it is a directory marker. *)
Definition filtered_out (path : str) : bool :=
  startswith path "__MACOSX/" || startswith (final_segment path) "._"
  || endswith path "/".

(** The entry page rule of the specification: compared case-insensitively,
    the final segment of the path is [index.html]. *)
Definition entry_page (path : str) : bool :=
  PyStr.eqb (final_segment (lower path)) "index.html".

End Spec.

(** Requests and archives the properties are checked on. *)
Module Scenario.

Definition headers (gameName : str) : Headers :=
  {| x_upload_password := Some ("secret" : str); x_game_name := Some gameName |}.

Definition environ : Environ :=
  {| UPLOAD_PASSWORD := Some ("secret" : str);
     R2_ACCOUNT_ID := Some ("account" : str);
     R2_ACCESS_KEY_ID := Some ("key-id" : str);
     R2_SECRET_ACCESS_KEY := Some ("key" : str);
     R2_BUCKET_NAME := Some ("games" : str);
     PUBLIC_GAME_URL_BASE := Some ("https://games.example/" : str) |}.

Definition no_credentials : Environ :=
  {| UPLOAD_PASSWORD := Some ("secret" : str);
     R2_ACCOUNT_ID := None;
     R2_ACCESS_KEY_ID := None;
     R2_SECRET_ACCESS_KEY := None;
     R2_BUCKET_NAME := Some ("games" : str);
     PUBLIC_GAME_URL_BASE := Some ("https://games.example/" : str) |}.

Definition file (name : str) : ZipInfo :=
  {| filename := name; content := Ok [] |}.

Definition archive (names : list str) : UploadFile :=
  ZipFile (Ok (map file names)).

(** A storage service that never fails, and one whose call number [k]
    (counting from 0) raises. *)
Definition reliable : Boto3 :=
  {| client_raises := None; put_raises := fun _ => None |}.

Definition failing_at (k : nat) : Boto3 :=
  {| client_raises := None;
     put_raises :=
       fun n => if Nat.eqb n k then Some (OtherError "write failed") else None |}.

Definition object (key content_type : str) : S3Object :=
  {| Bucket := "games"; Key := key; Body := []; ContentType := content_type |}.

(** Scenario A of the specification. *)
Definition scenario_A : list str :=
  ["index.html" : str; "style.css" : str; "__MACOSX/._index.html" : str].

(** Scenario B of the specification. *)
Definition scenario_B : list str :=
  ["game/index.html" : str; "game/main.js" : str].

Definition five_files : list str :=
  ["index.html" : str; "a.css" : str; "b.js" : str; "c.png" : str; "d.json" : str].

(** A request with a password that is not the configured one. *)
Definition wrong_password (gameName : str) : Headers :=
  {| x_upload_password := Some ("guess" : str); x_game_name := Some gameName |}.

(** The environment without the public base URL, and without the name of
    the bucket. *)
Definition no_base_url : Environ :=
  {| UPLOAD_PASSWORD := Some ("secret" : str);
     R2_ACCOUNT_ID := Some ("account" : str);
     R2_ACCESS_KEY_ID := Some ("key-id" : str);
     R2_SECRET_ACCESS_KEY := Some ("key" : str);
     R2_BUCKET_NAME := Some ("games" : str);
     PUBLIC_GAME_URL_BASE := None |}.

Definition no_bucket_name : Environ :=
  {| UPLOAD_PASSWORD := Some ("secret" : str);
     R2_ACCOUNT_ID := Some ("account" : str);
     R2_ACCESS_KEY_ID := Some ("key-id" : str);
     R2_SECRET_ACCESS_KEY := Some ("key" : str);
     R2_BUCKET_NAME := None;
     PUBLIC_GAME_URL_BASE := Some ("https://games.example/" : str) |}.

(** A record that cannot be read. *)
Definition unreadable (name : str) : ZipInfo :=
  {| filename := name; content := Exc (BadZipFile "Bad CRC-32 for file") |}.

End Scenario.

(** * Properties *)

(** ** The string functions *)

Section StrLemmas.

Lemma startswith_spec (s p : str) :
  startswith s p = true <-> exists t, s = p ++ t.
Proof.
  revert s; induction p as [|b p IH]; intros s; simpl.
  - split; [exists s; reflexivity | reflexivity].
  - destruct s as [|a s]; simpl.
    + split; [discriminate | intros [t Ht]; discriminate].
    + rewrite andb_true_iff, N.eqb_eq, IH. split.
      * intros [-> [t ->]]. exists t; reflexivity.
      * intros [t Ht]. injection Ht as -> ->. split; [reflexivity | exists t; reflexivity].
Qed.

Lemma endswith_spec (s p : str) :
  endswith s p = true <-> exists t, s = t ++ p.
Proof.
  unfold endswith. rewrite startswith_spec. split; intros [t Ht].
  - exists (rev t). apply (f_equal (@rev _)) in Ht.
    rewrite rev_involutive, rev_app_distr, rev_involutive in Ht. exact Ht.
  - exists (rev t). subst s. apply rev_app_distr.
Qed.

Lemma startswith_false (s p : str) :
  startswith s p = false <-> ~ exists t, s = p ++ t.
Proof.
  rewrite <- startswith_spec. destruct (startswith s p); split; congruence.
Qed.

Lemma endswith_false (s p : str) :
  endswith s p = false <-> ~ exists t, s = t ++ p.
Proof.
  rewrite <- endswith_spec. destruct (endswith s p); split; congruence.
Qed.

(** Two prefixes of one string: one is a prefix of the other. *)
Lemma startswith_both (s a b : str) :
  startswith s a = true -> startswith s b = true ->
  startswith a b = true \/ startswith b a = true.
Proof.
  revert a b; induction s as [|x s IH]; intros [|y a] [|z b]; simpl; auto;
    try discriminate.
  rewrite !andb_true_iff, !N.eqb_eq. intros [-> Ha] [-> Hb].
  destruct (IH _ _ Ha Hb); [left | right]; auto.
Qed.

Lemma endswith_both (s a b : str) :
  endswith s a = true -> endswith s b = true ->
  endswith a b = true \/ endswith b a = true.
Proof. unfold endswith. apply startswith_both. Qed.

Lemma contains_char (s : str) (c : char) :
  contains s [c] = true <-> In c s.
Proof.
  induction s as [|a s IH]; simpl.
  - split; [discriminate | tauto].
  - rewrite orb_true_iff, andb_true_iff, N.eqb_eq, IH.
    split; [intros [[-> _]|H] | intros [->|H]]; auto.
Qed.

Lemma split1_absent (s : str) (sep : char) :
  ~ In sep s -> split1 s sep = [s].
Proof.
  induction s as [|a s IH]; simpl; intros H; [reflexivity|].
  destruct (N.eqb_spec a sep) as [->|Hne]; [tauto|].
  rewrite IH by tauto. reflexivity.
Qed.

Lemma split1_first (a b : str) (sep : char) :
  ~ In sep a -> split1 (a ++ sep :: b) sep = [a; b].
Proof.
  induction a as [|x a IH]; simpl; intros H.
  - rewrite N.eqb_refl. reflexivity.
  - destruct (N.eqb_spec x sep) as [->|Hne]; [tauto|].
    rewrite IH by tauto. reflexivity.
Qed.

(** The first occurrence of a character cuts a string in two. *)
Lemma first_occurrence (s : str) (c : char) :
  In c s -> exists a b, s = a ++ c :: b /\ ~ In c a.
Proof.
  induction s as [|x s IH]; simpl; [tauto|]. intros H.
  destruct (N.eqb_spec x c) as [->|Hne].
  - exists [], s. split; [reflexivity | simpl; tauto].
  - destruct IH as (a & b & -> & Ha); [tauto|].
    exists (x :: a), b. split; [reflexivity | simpl; tauto].
Qed.

Lemma lstrip_spec (s : str) (c : char) :
  exists n, s = repeat c n ++ lstrip s c /\ startswith (lstrip s c) [c] = false.
Proof.
  induction s as [|a s (n & Hn & Hs)]; simpl.
  - exists 0%nat. split; reflexivity.
  - destruct (N.eqb_spec a c) as [->|Hne].
    + exists (S n). simpl. split; [f_equal; exact Hn | exact Hs].
    + exists 0%nat. simpl. split; [reflexivity|].
      apply N.eqb_neq in Hne. rewrite Hne. reflexivity.
Qed.

Lemma rev_repeat (c : char) (n : nat) : rev (repeat c n) = repeat c n.
Proof.
  induction n as [|n IH]; simpl; [reflexivity|].
  rewrite IH. symmetry. apply repeat_cons.
Qed.

Lemma rstrip_spec (s : str) (c : char) :
  exists n, s = rstrip s c ++ repeat c n /\ endswith (rstrip s c) [c] = false.
Proof.
  unfold rstrip, endswith. destruct (lstrip_spec (rev s) c) as (n & Hn & Hs).
  exists n. rewrite rev_involutive. split; [|exact Hs].
  apply (f_equal (@rev _)) in Hn.
  rewrite rev_involutive, rev_app_distr, rev_repeat in Hn. exact Hn.
Qed.

Lemma eqb_eq (s t : str) : PyStr.eqb s t = true <-> s = t.
Proof.
  revert t; induction s as [|a s IH]; intros [|b t]; simpl;
    try (split; [discriminate | congruence]); [tauto|].
  rewrite andb_true_iff, N.eqb_eq, IH. split; [intros [-> ->] | intros [= -> ->]]; auto.
Qed.

End StrLemmas.

(** Two endings that are not endings of one another never both end one
    string. *)
Ltac endings_clash H1 H2 :=
  let X := fresh in
  destruct (endswith_both _ _ _ H1 H2) as [X|X]; vm_compute in X; discriminate X.

(** ** The stages of the endpoint *)

Section Stages.

Variables (headers : Headers) (environ : Environ) (gameZip : UploadFile)
          (boto3 : Boto3) (bucket : list S3Object).

Lemma falsy_false (s : str) : falsy s = false <-> s <> [].
Proof. destruct s; simpl; split; congruence. Qed.

Lemma check_request_go (gameName : str) :
  check_request headers environ = Go gameName <-> authorized headers environ gameName.
Proof.
  unfold check_request, authorized.
  destruct (x_game_name headers) as [g|];
    [|split; [discriminate | intros [H _]; discriminate]].
  destruct (x_upload_password headers) as [p|];
    [|split; [discriminate | intros (_ & _ & q & H & _); discriminate]].
  destruct (UPLOAD_PASSWORD environ) as [x|];
    [|split; [discriminate | intros (_ & _ & q & _ & H & _); discriminate]].
  destruct (falsy x) eqn:Hx.
  { split; [discriminate|]. intros (_ & _ & q & [= <-] & [= <-] & Hq).
    apply falsy_false in Hq. congruence. }
  destruct (falsy p) eqn:Hp; simpl.
  { split; [discriminate|]. intros (_ & _ & q & [= <-] & _ & Hq).
    apply falsy_false in Hq. congruence. }
  destruct (PyStr.eqb p x) eqn:Hpx; simpl.
  - apply eqb_eq in Hpx. subst x.
    destruct (falsy g) eqn:Hg.
    + split; [discriminate|]. intros ([= <-] & Hn & _).
      apply falsy_false in Hn. congruence.
    + apply falsy_false in Hg, Hp. split.
      * intros [= <-]. repeat split; auto. exists p; auto.
      * intros ([= <-] & _). reflexivity.
  - split; [discriminate|]. intros (_ & _ & q & Hp' & Hx' & _).
    assert (PyStr.eqb p x = true) by (apply eqb_eq; congruence). congruence.
Qed.

Lemma validate_zip_go (infolist : list ZipInfo) (valid_files : list str) :
  validate_zip gameZip = Go (infolist, valid_files) <->
  valid_zip gameZip infolist /\ valid_files = valid_files_of (namelist infolist).
Proof.
  unfold validate_zip, valid_zip.
  destruct gameZip as [e|[l|[t|t|t]]]; simpl;
    try (split; [discriminate | intros [[H _] _]; discriminate]).
  destruct (valid_files_of (namelist l)) as [|f fs] eqn:Hv.
  - split; [discriminate|]. intros [([= <-] & Hne & _) _]. congruence.
  - destruct (has_index (f :: fs)) eqn:Hi; simpl.
    + split.
      * intros [= <- <-]. rewrite Hv. repeat split; auto. discriminate.
      * intros [([= <-] & _ & _) ->]. rewrite Hv. reflexivity.
    + split; [discriminate|]. intros [([= <-] & _ & H) _]. congruence.
Qed.

Lemma init_client_go :
  init_client environ boto3 = Go tt <-> client_ready environ boto3.
Proof.
  unfold init_client, client_ready.
  destruct (R2_ACCOUNT_ID environ), (R2_ACCESS_KEY_ID environ),
    (R2_SECRET_ACCESS_KEY environ);
    try (split; [discriminate | intros (? & ? & ? & ?); congruence]).
  destruct (client_raises boto3) as [[t|t|t]|];
    try (split; [discriminate | intros (? & ? & ? & ?); congruence]).
  split; [|reflexivity]. intros _. repeat split; discriminate.
Qed.

(** The stages before the first write all pass exactly on an authorized
    request with a valid zip and a storage client. *)
Lemma prepare_go (safe_game_name : str) (infolist : list ZipInfo) (valid_files : list str) :
  prepare headers environ gameZip boto3 = Go (safe_game_name, infolist, valid_files) <->
  exists gameName,
    authorized headers environ gameName /\ safe_game_name = sanitize gameName /\
    valid_zip gameZip infolist /\ valid_files = valid_files_of (namelist infolist) /\
    client_ready environ boto3.
Proof.
  unfold prepare. split.
  - destruct (check_request headers environ) as [g|r] eqn:Hc; simpl; [|discriminate].
    destruct (validate_zip gameZip) as [[l v]|r] eqn:Hz; simpl; [|discriminate].
    destruct (init_client environ boto3) as [[]|r] eqn:Hi; simpl; [|discriminate].
    intros [= <- <- <-]. exists g.
    apply check_request_go in Hc. apply validate_zip_go in Hz as [Hz ->].
    apply init_client_go in Hi. auto.
  - intros (g & Ha & -> & Hz & -> & Hi).
    apply check_request_go in Ha. rewrite Ha; simpl.
    assert (validate_zip gameZip = Go (infolist, valid_files_of (namelist infolist))) as ->
      by (apply validate_zip_go; auto).
    apply init_client_go in Hi. simpl. rewrite Hi. reflexivity.
Qed.

(** A run whose stages pass is the run of the upload loop. *)
Lemma upload_publish (gameName : str) (infolist : list ZipInfo) :
  authorized headers environ gameName -> valid_zip gameZip infolist ->
  client_ready environ boto3 ->
  upload headers environ gameZip boto3 bucket =
  publish environ boto3 (sanitize gameName) (valid_files_of (namelist infolist))
          infolist bucket.
Proof.
  intros Ha Hz Hc. unfold upload.
  assert (prepare headers environ gameZip boto3 =
          Go (sanitize gameName, infolist, valid_files_of (namelist infolist))) as ->
    by (apply prepare_go; exists gameName; auto).
  reflexivity.
Qed.

(** A run that stops at a stage before the loop writes nothing. *)
Lemma upload_done (r : retval) :
  prepare headers environ gameZip boto3 = Done r ->
  upload headers environ gameZip boto3 bucket =
  {| response := r; s3 := untouched bucket; printed_count := None |}.
Proof. unfold upload. intros ->. reflexivity. Qed.

End Stages.

(** ** The upload loop *)

Section Loop.

Variables (environ : Environ) (boto3 : Boto3) (safe_game_name : str)
          (valid_files : list str).

Lemma upload_loop_plan (infolist : list ZipInfo) (s3 : S3) (n : nat) :
  upload_loop environ boto3 safe_game_name valid_files infolist s3 n =
  run_plan boto3 (plan environ safe_game_name valid_files infolist) s3 n.
Proof.
  revert s3 n; induction infolist as [|info rest IH]; intros s3 n; [reflexivity|].
  change (plan environ safe_game_name valid_files (info :: rest))
    with (planned environ safe_game_name valid_files info
          ++ plan environ safe_game_name valid_files rest).
  simpl. unfold planned.
  destruct (skipped info); [apply IH|].
  destruct (entry_path_of valid_files (filename info)) as [p|]; [|apply IH].
  destruct (content info) as [body|e]; [|reflexivity].
  destruct (R2_BUCKET_NAME environ) as [b|]; [|reflexivity].
  simpl. destruct (put_object _ _ _) as [[[]|e] s3']; [apply IH | reflexivity].
Qed.

(** When every call succeeds, the loop commits the planned objects in
    order and counts them. *)
Lemma run_plan_all (objs : list S3Object) (s3 : S3) (n : nat) :
  (forall i, i < length objs -> put_raises boto3 (put_calls s3 + i) = None) ->
  run_plan boto3 (map (@Ok _) objs) s3 n =
  (Ok (n + length objs),
   {| objects := objects s3 ++ objs; put_calls := put_calls s3 + length objs |}).
Proof.
  revert s3 n; induction objs as [|o objs IH]; intros s3 n H; simpl.
  - rewrite app_nil_r, !Nat.add_0_r. destruct s3; reflexivity.
  - unfold put_object. rewrite <- (Nat.add_0_r (put_calls s3)) at 1.
    rewrite H by (simpl; lia). rewrite IH.
    + simpl. rewrite <- app_assoc. simpl. repeat f_equal; lia.
    + intros i Hi. simpl. rewrite <- Nat.add_succ_r. apply H. simpl; lia.
Qed.

(** The first call that raises ends the loop; what was committed stays. *)
Lemma run_plan_failure (objs : list S3Object) (o : S3Object)
    (rest : list (outcome S3Object)) (e : exception) (s3 : S3) (n : nat) :
  (forall i, i < length objs -> put_raises boto3 (put_calls s3 + i) = None) ->
  put_raises boto3 (put_calls s3 + length objs) = Some e ->
  run_plan boto3 (map (@Ok _) objs ++ Ok o :: rest) s3 n =
  (Exc e, {| objects := objects s3 ++ objs; put_calls := S (put_calls s3 + length objs) |}).
Proof.
  revert s3 n; induction objs as [|x objs IH]; intros s3 n H He; simpl in *.
  - unfold put_object. rewrite Nat.add_0_r in He. rewrite He.
    rewrite app_nil_r, Nat.add_0_r. reflexivity.
  - unfold put_object. rewrite <- (Nat.add_0_r (put_calls s3)) at 1.
    rewrite H by lia. rewrite IH; simpl.
    + rewrite <- app_assoc. simpl. repeat f_equal; lia.
    + intros i Hi. rewrite <- Nat.add_succ_r. apply H. lia.
    + rewrite <- Nat.add_succ_r. exact He.
Qed.

(** What a loop that ends without an exception has done. *)
Lemma run_plan_ok (todo : list (outcome S3Object)) (s3 s3' : S3) (n m : nat) :
  run_plan boto3 todo s3 n = (Ok m, s3') ->
  exists objs,
    todo = map (@Ok _) objs /\ m = n + length objs /\
    objects s3' = objects s3 ++ objs /\
    put_calls s3' = put_calls s3 + length objs.
Proof.
  revert s3 n; induction todo as [|[o|e] todo IH]; intros s3 n; simpl.
  - intros [= <- <-]. exists []. simpl. rewrite app_nil_r. repeat split; lia.
  - unfold put_object. destruct (put_raises boto3 (put_calls s3)); [discriminate|].
    intros H. apply IH in H as (objs & -> & -> & Ho & Hc). simpl in *.
    exists (o :: objs). simpl. rewrite Ho, Hc, <- app_assoc. repeat split; lia.
  - discriminate.
Qed.

(** The calls the loop makes: one for each object it commits, and one more
    only when the last call raised, which ends the loop with the exception
    of that call. *)
Lemma run_plan_calls (todo : list (outcome S3Object)) (s3 : S3) (n : nat) :
  exists objs,
    objects (snd (run_plan boto3 todo s3 n)) = objects s3 ++ objs /\
    (put_calls (snd (run_plan boto3 todo s3 n)) = put_calls s3 + length objs \/
     (put_calls (snd (run_plan boto3 todo s3 n)) = S (put_calls s3 + length objs) /\
      exists e, fst (run_plan boto3 todo s3 n) = Exc e /\
                put_raises boto3 (put_calls s3 + length objs) = Some e)).
Proof.
  revert s3 n; induction todo as [|[o|e] todo IH]; intros s3 n; cbn [run_plan].
  - exists []. rewrite app_nil_r. cbn. split; [reflexivity | left; lia].
  - unfold put_object. destruct (put_raises boto3 (put_calls s3)) as [e|] eqn:He.
    + exists []. rewrite app_nil_r. cbn [snd fst objects put_calls length].
      rewrite Nat.add_0_r. split; [reflexivity|]. right. split; [reflexivity|].
      exists e. split; [reflexivity | exact He].
    + destruct (IH {| objects := objects s3 ++ [o]; put_calls := S (put_calls s3) |} (S n))
        as (objs & Ho & Hc). cbn [objects put_calls] in Ho, Hc.
      exists (o :: objs). rewrite Ho, <- app_assoc. cbn [length app].
      split; [reflexivity|].
      replace (put_calls s3 + S (length objs)) with (S (put_calls s3) + length objs)
        by lia.
      exact Hc.
  - exists []. rewrite app_nil_r. cbn. split; [reflexivity | left; lia].
Qed.

End Loop.

(** ** Paths: filtering and the common root *)

Section Paths.

Lemma slash_str : ("/" : str) = [chr "/"].
Proof. reflexivity. Qed.

Lemma split1_cases (s : str) :
  (~ In (chr "/") s /\ split1 s (chr "/") = [s]) \/
  (exists a b, s = a ++ "/" ++ b /\ ~ In (chr "/") a /\ split1 s (chr "/") = [a; b]).
Proof.
  destruct (in_dec N.eq_dec (chr "/") s) as [Hin|Hn].
  - right. destruct (first_occurrence _ _ Hin) as (a & b & -> & Ha).
    exists a, b. split; [reflexivity|]. split; [exact Ha|]. apply split1_first; exact Ha.
  - left. split; [exact Hn | apply split1_absent; exact Hn].
Qed.

Lemma first_segment_app (a b : str) :
  ~ In (chr "/") a -> first_segment (a ++ "/" ++ b) = a.
Proof.
  intros Ha. unfold first_segment. rewrite slash_str. cbn [app].
  rewrite split1_first by exact Ha. reflexivity.
Qed.

Lemma first_segment_absent (s : str) :
  ~ In (chr "/") s -> first_segment s = s.
Proof. intros H. unfold first_segment. rewrite split1_absent by exact H. reflexivity. Qed.

Lemma first_segment_no_slash (s : str) : ~ In (chr "/") (first_segment s).
Proof.
  destruct (split1_cases s) as [[Hn Hs]|(a & b & -> & Ha & Hs)].
  - rewrite first_segment_absent; assumption.
  - rewrite first_segment_app; assumption.
Qed.

(** A path that starts with a segment and a separator has that segment as
    its first segment. *)
Lemma first_segment_prefix (seg rest : str) :
  ~ In (chr "/") seg -> first_segment (seg ++ "/" ++ rest) = seg.
Proof. apply first_segment_app. Qed.

Lemma root_stripped_spec (valid_files : list str) (name : str) :
  root_stripped valid_files name = true <->
  In (chr "/") name /\
  forall f, In f valid_files -> exists rest, f = first_segment name ++ "/" ++ rest.
Proof.
  unfold root_stripped. rewrite andb_true_iff, slash_str, contains_char, forallb_forall.
  split; intros [H1 H2]; (split; [exact H1|]); intros f Hf.
  - apply H2 in Hf. apply startswith_spec in Hf as [t ->].
    exists t. rewrite <- app_assoc. reflexivity.
  - apply startswith_spec. destruct (H2 f Hf) as [t ->]. exists t.
    rewrite <- app_assoc. reflexivity.
Qed.

Lemma entry_path_of_unfold (valid_files : list str) (name : str) :
  entry_path_of valid_files name =
  if root_stripped valid_files name then
    let rest := item (split1 name (chr "/")) 1 in
    if falsy rest then None else Some rest
  else Some name.
Proof.
  unfold entry_path_of, root_stripped, first_segment.
  destruct (contains name "/"); [|reflexivity].
  destruct (forallb _ valid_files); reflexivity.
Qed.

(** The entry path of a stripped entry is what follows its first segment
    and separator. *)
Lemma entry_path_of_stripped (valid_files : list str) (name : str) :
  root_stripped valid_files name = true ->
  exists rest,
    name = first_segment name ++ "/" ++ rest /\
    entry_path_of valid_files name = if falsy rest then None else Some rest.
Proof.
  intros H. rewrite entry_path_of_unfold, H. cbv zeta.
  apply root_stripped_spec in H as [Hin _]. unfold first_segment.
  destruct (split1_cases name) as [[Hn _]|(a & b & -> & Ha & ->)]; [contradiction|].
  exists b. split; reflexivity.
Qed.

Lemma usable_spec (name : str) :
  usable name = true <->
  ~ (exists t, name = "__MACOSX/" ++ t) /\ ~ (exists t, name = "._" ++ t)
  /\ ~ (exists t, name = t ++ "/").
Proof.
  unfold usable. rewrite !andb_true_iff, !negb_true_iff.
  rewrite !startswith_false, endswith_false. tauto.
Qed.

Lemma valid_files_spec (all_names : list str) (name : str) :
  In name (valid_files_of all_names) <-> In name all_names /\ usable name = true.
Proof. unfold valid_files_of. apply filter_In. Qed.

Lemma skipped_usable (info : ZipInfo) :
  skipped info = negb (usable (filename info)).
Proof.
  unfold skipped, usable, is_dir.
  rewrite !negb_andb, !negb_involutive. reflexivity.
Qed.

(** A usable entry that is stripped keeps a non-empty path. *)
Lemma stripped_nonempty (valid_files : list str) (name : str) :
  usable name = true -> root_stripped valid_files name = true ->
  exists rest,
    name = first_segment name ++ "/" ++ rest /\ rest <> [] /\
    entry_path_of valid_files name = Some rest.
Proof.
  intros Hu Hs. destruct (entry_path_of_stripped _ _ Hs) as (rest & Hn & He).
  exists rest. split; [exact Hn|].
  destruct rest as [|c rest]; [|split; [discriminate | exact He]].
  exfalso. apply usable_spec in Hu as (_ & _ & Hd). apply Hd.
  exists (first_segment name). rewrite Hn at 1. rewrite app_nil_r. reflexivity.
Qed.

(** The test gives one answer for all valid files. *)
Lemma root_stripped_uniform (valid_files : list str) (name other : str) :
  In name valid_files -> In other valid_files ->
  root_stripped valid_files name = true ->
  root_stripped valid_files other = true /\ first_segment other = first_segment name.
Proof.
  intros Hn Ho H. apply root_stripped_spec in H as [Hin Hall].
  destruct (Hall other Ho) as [t Ht].
  assert (first_segment other = first_segment name) as Hseg.
  { rewrite Ht at 1. apply first_segment_prefix, first_segment_no_slash. }
  split; [|exact Hseg]. apply root_stripped_spec. split.
  - rewrite Ht. apply in_or_app. right. rewrite slash_str. left. reflexivity.
  - rewrite Hseg. exact Hall.
Qed.

End Paths.

(** ** The name sanitizer *)

Section Sanitize.

Lemma in_dash_underscore (c : char) :
  contains "-_" [c] = (c =? chr "-")%N || (c =? chr "_")%N.
Proof.
  with_strategy opaque [N.eqb] cbn.
  rewrite !andb_true_r, orb_false_r.
  rewrite (N.eqb_sym 45 c), (N.eqb_sym 95 c). reflexivity.
Qed.

Lemma sanitize_map (name : str) :
  sanitize name = map (fun c => if kept c then c else chr "_") name.
Proof.
  unfold sanitize, kept. induction name as [|c name IH]; [reflexivity|].
  cbn [flat_map map]. rewrite IH, in_dash_underscore, orb_assoc.
  destruct (isalnum c || (c =? chr "-")%N || (c =? chr "_")%N); reflexivity.
Qed.

Lemma kept_underscore : kept (chr "_") = true.
Proof. reflexivity. Qed.

Lemma sanitize_idempotent (name : str) :
  sanitize (sanitize name) = sanitize name.
Proof.
  rewrite !sanitize_map, map_map. apply map_ext. intros c.
  destruct (kept c) eqn:Hc; [rewrite Hc | rewrite kept_underscore]; reflexivity.
Qed.

Lemma sanitize_kept (name : str) :
  forallb kept name = true -> sanitize name = name.
Proof.
  rewrite sanitize_map. induction name as [|c name IH]; [reflexivity|].
  cbn [forallb map]. rewrite andb_true_iff. intros [-> H]. rewrite IH by exact H.
  reflexivity.
Qed.

Lemma sanitize_replaced (name : str) :
  (forall c, In c name -> kept c = false) ->
  sanitize name = repeat (chr "_") (length name).
Proof.
  rewrite sanitize_map. induction name as [|c name IH]; [reflexivity|].
  intros H. cbn [map length repeat]. rewrite (H c) by (left; reflexivity).
  rewrite IH by (intros d Hd; apply H; right; exact Hd). reflexivity.
Qed.

End Sanitize.

(** C5: [sanitize] is defined on every string; it keeps a character that is
    alphanumeric or one of [-] and [_] and puts [_] for any other; it is
    idempotent; the empty string stays empty, a string of disallowed
    characters becomes as many underscores, and ["My Game!"] becomes
    ["My_Game_"]. *)
Theorem C5_sanitize (name : str) :
  sanitize name = map (fun c => if kept c then c else chr "_") name
  /\ sanitize (sanitize name) = sanitize name
  /\ sanitize [] = []
  /\ ((forall c, In c name -> kept c = false) ->
      sanitize name = repeat (chr "_") (length name))
  /\ sanitize "My Game!" = "My_Game_"
  /\ sanitize "!? ./" = "_____".
Proof.
  split; [apply sanitize_map|].
  split; [apply sanitize_idempotent|].
  split; [reflexivity|].
  split; [apply sanitize_replaced | split; reflexivity].
Qed.

(** ** The content type *)

(** C6: the content type is a function of the entry path alone, given for
    every path: a path whose lowercased form ends with an ending of the
    table has the type the table gives for it, and a path with none of the
    endings has [application/octet-stream]. *)
Theorem C6_content_type (path : str) :
  (forall ext mime, In (ext, mime) content_types ->
     (exists stem, lower path = stem ++ ext) -> content_type_of path = mime)
  /\ ((forall ext mime, In (ext, mime) content_types ->
         ~ exists stem, lower path = stem ++ ext) ->
      content_type_of path = "application/octet-stream")
  /\ content_types =
       [ (".html", "text/html"); (".css", "text/css");
         (".js", "application/javascript"); (".json", "application/json");
         (".wasm", "application/wasm"); (".png", "image/png");
         (".jpg", "image/jpeg"); (".jpeg", "image/jpeg");
         (".svg", "image/svg+xml"); (".gif", "image/gif");
         (".ico", "image/x-icon") ]
  /\ content_type_of "Logo.PNG" = "image/png"
  /\ content_type_of "data/Level.JSON" = "application/json"
  /\ content_type_of "README" = "application/octet-stream".
Proof.
  unfold content_type_of at 1 2. cbv zeta. generalize (lower path) as l. intros l.
  split; [|split; [|split; [reflexivity | vm_compute; auto]]].
  - intros ext mime Hin Hs. apply endswith_spec in Hs.
    unfold content_types in Hin. simpl In in Hin.
    repeat (destruct Hin as [Hin|Hin]; [injection Hin as <- <-|]);
      try contradiction;
      repeat match goal with
        | |- context [if endswith l ?e then _ else _] =>
            let E := fresh "E" in
            destruct (endswith l e) eqn:E;
            [ first [reflexivity | endings_clash E Hs] | try discriminate Hs ]
        end.
  - intros H.
    repeat match goal with
      | |- context [if endswith l ?e then _ else _] =>
          let E := fresh "E" in
          destruct (endswith l e) eqn:E;
          [ exfalso; apply endswith_spec in E; revert E; eapply H;
            unfold content_types; simpl; eauto 20 | ]
      end.
    reflexivity.
Qed.

(** ** Runs of the endpoint *)

Section Runs.

Variables (headers : Headers) (environ : Environ) (gameZip : UploadFile)
          (boto3 : Boto3) (bucket : list S3Object).

(** A stage that stops the run answers with an error and a status code. *)
Lemma prepare_done (r : retval) :
  prepare headers environ gameZip boto3 = Done r ->
  exists text status, r = error text status.
Proof.
  unfold prepare, check_request, validate_zip, init_client, bind.
  intros H.
  repeat match type of H with
         | context [match ?x with _ => _ end] =>
             lazymatch x with
             | context [match _ with _ => _ end] => fail
             | _ => destruct x
             end
         end;
    try discriminate H; injection H as <-; unfold error; eauto.
Qed.

(** A run either stops before the loop, with the store untouched, or is a
    run of the loop. *)
Lemma upload_cases :
  (exists text status,
     upload headers environ gameZip boto3 bucket =
     {| response := error text status; s3 := untouched bucket;
        printed_count := None |} /\
     forall gameName infolist,
       ~ (authorized headers environ gameName /\ valid_zip gameZip infolist
          /\ client_ready environ boto3))
  \/ (exists gameName infolist,
        authorized headers environ gameName /\ valid_zip gameZip infolist /\
        client_ready environ boto3 /\
        upload headers environ gameZip boto3 bucket =
        publish environ boto3 (sanitize gameName)
                (valid_files_of (namelist infolist)) infolist bucket).
Proof.
  destruct (prepare headers environ gameZip boto3) as [[[safe infolist] valid]|r] eqn:Hp.
  - right. apply prepare_go in Hp as (g & Ha & -> & Hz & -> & Hc).
    exists g, infolist. split; [exact Ha|]. split; [exact Hz|]. split; [exact Hc|].
    apply upload_publish; auto.
  - left. destruct (prepare_done _ Hp) as (text & status & ->).
    exists text, status. split; [apply upload_done; exact Hp|].
    intros g infolist (Ha & Hz & Hc).
    assert (prepare headers environ gameZip boto3 =
            Go (sanitize g, infolist, valid_files_of (namelist infolist))) as H
      by (apply prepare_go; exists g; auto).
    congruence.
Qed.

(** What the loop has done when the endpoint answers with a plain dict. *)
Lemma publish_return (safe_game_name : str) (valid_files : list str)
    (infolist : list ZipInfo) (body : dict) :
  response (publish environ boto3 safe_game_name valid_files infolist bucket)
  = Return body ->
  exists base objs,
    PUBLIC_GAME_URL_BASE environ = Some base /\
    body = success safe_game_name (game_url_of base safe_game_name) /\
    plan environ safe_game_name valid_files infolist = map (@Ok _) objs /\
    s3 (publish environ boto3 safe_game_name valid_files infolist bucket)
    = {| objects := bucket ++ objs; put_calls := length objs |} /\
    printed_count (publish environ boto3 safe_game_name valid_files infolist bucket)
    = Some (length objs).
Proof.
  unfold publish. rewrite upload_loop_plan.
  destruct (run_plan _ _ _ _) as [[m|e] s3'] eqn:Hr; cbn [response s3 printed_count];
    [|discriminate].
  apply run_plan_ok in Hr as (objs & Hplan & -> & Ho & Hc). cbn in Ho, Hc.
  destruct (PUBLIC_GAME_URL_BASE environ) as [base|]; [|discriminate].
  intros [= <-]. exists base, objs.
  split; [reflexivity|]. split; [reflexivity|]. split; [exact Hplan|].
  split; [|reflexivity].
  destruct s3'; cbn in *; subst; reflexivity.
Qed.

Lemma upload_return (body : dict) :
  response (upload headers environ gameZip boto3 bucket) = Return body ->
  exists gameName infolist base objs,
    authorized headers environ gameName /\ valid_zip gameZip infolist /\
    client_ready environ boto3 /\
    PUBLIC_GAME_URL_BASE environ = Some base /\
    body = success (sanitize gameName) (game_url_of base (sanitize gameName)) /\
    plan environ (sanitize gameName) (valid_files_of (namelist infolist)) infolist
    = map (@Ok _) objs /\
    s3 (upload headers environ gameZip boto3 bucket)
    = {| objects := bucket ++ objs; put_calls := length objs |} /\
    printed_count (upload headers environ gameZip boto3 bucket) = Some (length objs).
Proof.
  destruct upload_cases as [(text & status & -> & _)|(g & infolist & Ha & Hz & Hc & ->)];
    cbn [response]; [discriminate|].
  intros H. apply publish_return in H as (base & objs & H1 & H2 & H3 & H4 & H5).
  exists g, infolist, base, objs. tauto.
Qed.

(** A run whose stages pass, whose records can all be read and whose
    writes all succeed answers with the success dict, having written every
    planned object. *)
Lemma upload_success (gameName : str) (infolist : list ZipInfo) (base : str)
    (objs : list S3Object) :
  authorized headers environ gameName -> valid_zip gameZip infolist ->
  client_ready environ boto3 ->
  plan environ (sanitize gameName) (valid_files_of (namelist infolist)) infolist
  = map (@Ok _) objs ->
  (forall i, i < length objs -> put_raises boto3 i = None) ->
  PUBLIC_GAME_URL_BASE environ = Some base ->
  upload headers environ gameZip boto3 bucket =
  {| response := Return (success (sanitize gameName)
                                 (game_url_of base (sanitize gameName)));
     s3 := {| objects := bucket ++ objs; put_calls := length objs |};
     printed_count := Some (length objs) |}.
Proof.
  intros Ha Hz Hc Hplan Hok Hbase.
  rewrite (upload_publish _ _ _ _ bucket _ _ Ha Hz Hc). unfold publish.
  rewrite upload_loop_plan, Hplan, run_plan_all by exact Hok.
  rewrite Hbase. reflexivity.
Qed.

End Runs.

(** Every object of the plan comes from a record the loop does not pass
    over, and carries its path, content type and content. *)
Lemma plan_keys (environ : Environ) (safe_game_name : str) (valid_files : list str)
    (infolist : list ZipInfo) (o : S3Object) :
  In (Ok o) (plan environ safe_game_name valid_files infolist) ->
  exists info entry_path,
    In info infolist /\ skipped info = false /\
    entry_path_of valid_files (filename info) = Some entry_path /\
    Key o = safe_game_name ++ "/" ++ entry_path /\
    ContentType o = content_type_of entry_path /\
    content info = Ok (Body o).
Proof.
  unfold plan. rewrite in_flat_map. intros (info & Hin & Ho).
  unfold planned in Ho. destruct (skipped info) eqn:Hs; [contradiction|].
  destruct (entry_path_of valid_files (filename info)) as [p|] eqn:Hp; [|contradiction].
  destruct (content info) as [body|e] eqn:Hc;
    [|destruct Ho as [Ho|[]]; discriminate].
  destruct (R2_BUCKET_NAME environ) as [b|]; destruct Ho as [Ho|[]]; [|discriminate].
  injection Ho as <-. exists info, p. cbn. auto 7.
Qed.


(** ** The answer of a successful run *)

(** C7: the entry URL of a successful answer is the base URL without its
    trailing separators, then [/], the sanitized game name and
    [/index.html]; and for every base URL and game name, a run whose
    uploads have succeeded answers with that URL: building it cannot fail. *)
Theorem C7_entry_url (headers : Headers) (environ : Environ) (gameZip : UploadFile)
    (boto3 : Boto3) (bucket : list S3Object) :
  (forall body,
     response (upload headers environ gameZip boto3 bucket) = Return body ->
     exists gameName base slashes,
       x_game_name headers = Some gameName /\
       PUBLIC_GAME_URL_BASE environ = Some base /\
       base = rstrip base (chr "/") ++ repeat (chr "/") slashes /\
       endswith (rstrip base (chr "/")) "/" = false /\
       dict_get "gameUrl" body =
       Some (rstrip base (chr "/") ++ "/" ++ sanitize gameName ++ "/index.html"))
  /\ (forall gameName infolist base objs,
        authorized headers environ gameName -> valid_zip gameZip infolist ->
        client_ready environ boto3 ->
        plan environ (sanitize gameName) (valid_files_of (namelist infolist)) infolist
        = map (@Ok _) objs ->
        (forall i, i < length objs -> put_raises boto3 i = None) ->
        PUBLIC_GAME_URL_BASE environ = Some base ->
        exists body,
          response (upload headers environ gameZip boto3 bucket) = Return body /\
          dict_get "gameUrl" body =
          Some (rstrip base (chr "/") ++ "/" ++ sanitize gameName ++ "/index.html")).
Proof.
  split.
  - intros body H.
    apply upload_return in H as (g & infolist & base & objs & Ha & _ & _ & Hb & -> & _).
    destruct (rstrip_spec base (chr "/")) as (n & Hn & He).
    exists g, base, n. destruct Ha as (Hg & _). auto.
  - intros g infolist base objs Ha Hz Hc Hplan Hok Hbase.
    rewrite (upload_success headers environ gameZip boto3 bucket g infolist base objs)
      by assumption.
    eexists. split; reflexivity.
Qed.

Lemma C7_entry_url_witness :
  response (upload (Scenario.headers "My Game!") Scenario.environ
                   (Scenario.archive Scenario.scenario_A) Scenario.reliable [])
  = Return (success "My_Game_" "https://games.example/My_Game_/index.html")
  /\ exists gameName base slashes,
       x_game_name (Scenario.headers "My Game!") = Some gameName /\
       PUBLIC_GAME_URL_BASE Scenario.environ = Some base /\
       base = rstrip base (chr "/") ++ repeat (chr "/") slashes /\
       endswith (rstrip base (chr "/")) "/" = false /\
       dict_get "gameUrl" (success "My_Game_" "https://games.example/My_Game_/index.html") =
       Some (rstrip base (chr "/") ++ "/" ++ sanitize gameName ++ "/index.html").
Proof.
  split; [vm_compute; reflexivity|].
  apply (proj1 (C7_entry_url (Scenario.headers "My Game!") Scenario.environ
                  (Scenario.archive Scenario.scenario_A) Scenario.reliable [])).
  vm_compute; reflexivity.
Defined.

(** C4, as the code has it: the answer of a successful run is the dict of
    the four entries [message], [gameName], [gameUrl] and [status]; it holds
    the entry URL and no count.  The count of objects written is the
    counter that line 184 prints: it is the number of objects the run added
    to the bucket, each by one call of [put_object].  A run whose stages
    pass, whose records can be read and whose writes succeed ends this way,
    having written every object of the plan. *)
Theorem C4_success_answer (headers : Headers) (environ : Environ)
    (gameZip : UploadFile) (boto3 : Boto3) (bucket : list S3Object) :
  (forall body,
     response (upload headers environ gameZip boto3 bucket) = Return body ->
     exists gameName base objs,
       x_game_name headers = Some gameName /\
       PUBLIC_GAME_URL_BASE environ = Some base /\
       body = [ ("message", "Successfully uploaded game '" ++ sanitize gameName ++ "'.");
                ("gameName", sanitize gameName);
                ("gameUrl", game_url_of base (sanitize gameName));
                ("status", ("complete" : str)) ] /\
       printed_count (upload headers environ gameZip boto3 bucket) = Some (length objs) /\
       objects (s3 (upload headers environ gameZip boto3 bucket)) = bucket ++ objs /\
       put_calls (s3 (upload headers environ gameZip boto3 bucket)) = length objs)
  /\ (forall gameName infolist base objs,
        authorized headers environ gameName -> valid_zip gameZip infolist ->
        client_ready environ boto3 ->
        plan environ (sanitize gameName) (valid_files_of (namelist infolist)) infolist
        = map (@Ok _) objs ->
        (forall i, i < length objs -> put_raises boto3 i = None) ->
        PUBLIC_GAME_URL_BASE environ = Some base ->
        upload headers environ gameZip boto3 bucket =
        {| response := Return (success (sanitize gameName)
                                       (game_url_of base (sanitize gameName)));
           s3 := {| objects := bucket ++ objs; put_calls := length objs |};
           printed_count := Some (length objs) |}).
Proof.
  split; [|apply upload_success].
  intros body H.
  apply upload_return in H as (g & infolist & base & objs & Ha & _ & _ & Hb & -> & _ & Hs & Hn).
  exists g, base, objs. destruct Ha as (Hg & _). rewrite Hs. cbn. auto 7.
Qed.

Lemma C4_success_answer_witness :
  response (upload (Scenario.headers "My Game!") Scenario.environ
                   (Scenario.archive Scenario.scenario_B) Scenario.reliable [])
  = Return (success "My_Game_" "https://games.example/My_Game_/index.html")
  /\ exists gameName base objs,
       x_game_name (Scenario.headers "My Game!") = Some gameName /\
       PUBLIC_GAME_URL_BASE Scenario.environ = Some base /\
       success "My_Game_" "https://games.example/My_Game_/index.html" =
         [ ("message", "Successfully uploaded game '" ++ sanitize gameName ++ "'.");
           ("gameName", sanitize gameName);
           ("gameUrl", game_url_of base (sanitize gameName));
           ("status", ("complete" : str)) ] /\
       printed_count (upload (Scenario.headers "My Game!") Scenario.environ
                        (Scenario.archive Scenario.scenario_B) Scenario.reliable [])
       = Some (length objs) /\
       objects (s3 (upload (Scenario.headers "My Game!") Scenario.environ
                      (Scenario.archive Scenario.scenario_B) Scenario.reliable []))
       = [] ++ objs /\
       put_calls (s3 (upload (Scenario.headers "My Game!") Scenario.environ
                        (Scenario.archive Scenario.scenario_B) Scenario.reliable []))
       = length objs.
Proof.
  split; [vm_compute; reflexivity|].
  apply (proj1 (C4_success_answer (Scenario.headers "My Game!") Scenario.environ
                  (Scenario.archive Scenario.scenario_B) Scenario.reliable [])).
  vm_compute; reflexivity.
Defined.

(** C4 as the specification states it fails: in scenario A the run writes
    two objects and prints the count 2, and its answer has the entries
    [message], [gameName], [gameUrl] and [status] only: no count. *)
Lemma C4_answer_without_count :
  let run := upload (Scenario.headers "My Game!") Scenario.environ
                    (Scenario.archive Scenario.scenario_A) Scenario.reliable [] in
  response run =
    Return [ ("message", ("Successfully uploaded game 'My_Game_'." : str));
             ("gameName", ("My_Game_" : str));
             ("gameUrl", ("https://games.example/My_Game_/index.html" : str));
             ("status", ("complete" : str)) ]
  /\ printed_count run = Some 2
  /\ length (objects (s3 run)) = 2
  /\ dict_get "objectCount" (success "My_Game_" "https://games.example/My_Game_/index.html")
     = None.
Proof. vm_compute. repeat split. Qed.

(** ** Filtering, validation and root stripping *)

(** C1, as the code has it: filtering removes exactly the records whose
    path starts with [__MACOSX/], or starts with [._], or ends with a
    separator; the upload loop passes over the same records; the order of
    the archive plays no role.  The [._] test reads the start of the whole
    path, so a nested entry such as [game/._file] stays. *)
Theorem C1_filter (all_names : list str) (name : str) :
  (In name (valid_files_of all_names) <->
   In name all_names /\
   ~ (exists t, name = "__MACOSX/" ++ t) /\ ~ (exists t, name = "._" ++ t) /\
   ~ (exists t, name = t ++ "/"))
  /\ (forall info, skipped info = negb (usable (filename info)))
  /\ (forall before after,
        valid_files_of (before ++ after) = valid_files_of before ++ valid_files_of after)
  /\ usable "game/._file" = true.
Proof.
  split; [rewrite valid_files_spec, usable_spec; reflexivity|].
  split; [apply skipped_usable|].
  split; [intros; apply filter_app | reflexivity].
Qed.

(** C1 as the specification states it fails: the final segment of
    [game/._file] starts with [._], so the rule of the specification removes
    the entry, while the filter keeps it and the loop publishes it. *)
Lemma C1_nested_metadata_kept :
  Spec.final_segment "game/._file" = "._file"
  /\ Spec.filtered_out "game/._file" = true
  /\ valid_files_of ["game/index.html" : str; "game/._file" : str]
     = ["game/index.html" : str; "game/._file" : str]
  /\ map Key (objects (s3 (upload (Scenario.headers "g") Scenario.environ
                             (Scenario.archive ["game/index.html" : str; "game/._file" : str])
                             Scenario.reliable [])))
     = ["g/index.html" : str; "g/._file" : str].
Proof. vm_compute. repeat split. Qed.

Lemma has_index_spec (valid_files : list str) :
  has_index valid_files = true <->
  exists name stem, In name valid_files /\ lower name = stem ++ "index.html".
Proof.
  unfold has_index. rewrite existsb_exists. split.
  - intros (name & Hin & H). apply endswith_spec in H as [stem H]. eauto.
  - intros (name & stem & Hin & H). exists name. split; [exact Hin|].
    apply endswith_spec. eauto.
Qed.

(** C2, as the code has it: validation succeeds if and only if the
    lowercased path of some usable entry ends with the text [index.html],
    at any depth; when none does, the run ends with the missing-index
    answer and nothing is written.  A nested [assets/index.html] passes,
    and so does [myindex.html], whose name only ends with the text. *)
Theorem C2_index_validation :
  (forall valid_files,
     has_index valid_files = true <->
     exists name stem, In name valid_files /\ lower name = stem ++ "index.html")
  /\ (forall headers environ gameZip boto3 bucket gameName infolist,
        authorized headers environ gameName ->
        gameZip = ZipFile (Ok infolist) ->
        valid_files_of (namelist infolist) <> [] ->
        (has_index (valid_files_of (namelist infolist)) = true <->
         exists r, validate_zip gameZip = Go r)
        /\ (has_index (valid_files_of (namelist infolist)) = false ->
            upload headers environ gameZip boto3 bucket =
            {| response :=
                 error "Invalid zip structure: index.html not found at the root level." 400;
               s3 := untouched bucket; printed_count := None |}))
  /\ has_index ["assets/index.html" : str] = true
  /\ has_index ["myindex.html" : str] = true
  /\ has_index ["index.htm" : str; "main.js" : str] = false.
Proof.
  split; [apply has_index_spec|].
  split; [|vm_compute; auto].
  intros headers environ gameZip boto3 bucket g infolist Ha -> Hne. split.
  - unfold validate_zip.
    destruct (valid_files_of (namelist infolist)) as [|f fs]; [congruence|].
    destruct (has_index (f :: fs)); cbn; split; eauto; try discriminate.
    intros [r H]; discriminate.
  - intros Hi. apply upload_done. unfold prepare.
    apply check_request_go in Ha. rewrite Ha. cbn. unfold validate_zip.
    destruct (valid_files_of (namelist infolist)) as [|f fs]; [congruence|].
    rewrite Hi. reflexivity.
Qed.

Lemma C2_index_validation_witness :
  authorized (Scenario.headers "g") Scenario.environ "g"
  /\ upload (Scenario.headers "g") Scenario.environ
            (Scenario.archive ["index.htm" : str; "main.js" : str]) Scenario.reliable []
     = {| response :=
            error "Invalid zip structure: index.html not found at the root level." 400;
          s3 := untouched []; printed_count := None |}.
Proof.
  assert (authorized (Scenario.headers "g") Scenario.environ "g") as Ha.
  { split; [reflexivity|]. split; [discriminate|].
    exists ("secret" : str). repeat split. discriminate. }
  split; [exact Ha|].
  apply (proj1 (proj2 C2_index_validation) (Scenario.headers "g") Scenario.environ
           (Scenario.archive ["index.htm" : str; "main.js" : str]) Scenario.reliable []
           "g" (map Scenario.file ["index.htm" : str; "main.js" : str]) Ha eq_refl).
  - vm_compute. discriminate.
  - vm_compute. reflexivity.
Defined.

(** C2 as the specification states it fails: the final segment of
    [myindex.html] is not [index.html], yet the archive passes validation
    and is published. *)
Lemma C2_suffix_is_enough :
  Spec.entry_page "myindex.html" = false
  /\ has_index ["myindex.html" : str] = true
  /\ response (upload (Scenario.headers "g") Scenario.environ
                 (Scenario.archive ["myindex.html" : str]) Scenario.reliable [])
     = Return (success "g" "https://games.example/g/index.html")
  /\ map Key (objects (s3 (upload (Scenario.headers "g") Scenario.environ
                             (Scenario.archive ["myindex.html" : str])
                             Scenario.reliable [])))
     = ["g/myindex.html" : str].
Proof. vm_compute. repeat split. Qed.

(** The rule of lines 149-155.  For the usable entries of one request: an
    entry loses its first segment and separator if and only if every usable
    entry starts with that segment and a separator; an entry without
    separator, or two first segments that differ, leave every path as it is;
    the test gives one answer for all entries; a path that is empty after
    stripping is dropped.  Every object is written under the game name, a
    separator and the path of its record, and the path of a record whose
    own path is not empty is not empty. *)
Theorem root_stripping_rule (infolist : list ZipInfo) :
  let valid_files := valid_files_of (namelist infolist) in
  (forall name, In name valid_files ->
     (root_stripped valid_files name = true <->
      forall f, In f valid_files -> exists rest, f = first_segment name ++ "/" ++ rest)
     /\ (root_stripped valid_files name = true ->
         exists rest, name = first_segment name ++ "/" ++ rest /\ rest <> [] /\
                      entry_path_of valid_files name = Some rest)
     /\ (root_stripped valid_files name = false ->
         entry_path_of valid_files name = Some name)
     /\ (forall other, In other valid_files ->
         root_stripped valid_files other = root_stripped valid_files name)
     /\ (forall path, entry_path_of valid_files name = Some path ->
         name <> [] -> path <> []))
  /\ ((exists f, In f valid_files /\ ~ In (chr "/") f) ->
      forall name, In name valid_files -> entry_path_of valid_files name = Some name)
  /\ ((exists f g, In f valid_files /\ In g valid_files /\
                   first_segment f <> first_segment g) ->
      forall name, In name valid_files -> entry_path_of valid_files name = Some name)
  /\ (forall segment, ~ In (chr "/") segment ->
      (forall f, In f valid_files -> exists rest, f = segment ++ "/" ++ rest) ->
      entry_path_of valid_files (segment ++ "/") = None)
  /\ (forall environ safe_game_name o,
        In (Ok o) (plan environ safe_game_name valid_files infolist) ->
        exists info path,
          In info infolist /\ In (filename info) valid_files /\
          entry_path_of valid_files (filename info) = Some path /\
          Key o = safe_game_name ++ "/" ++ path /\
          (filename info <> [] -> path <> [])).
Proof.
  intros valid_files.
  assert (forall name, In name valid_files -> usable name = true) as Husable
    by (intros name H; apply valid_files_spec in H; tauto).
  assert (forall name, root_stripped valid_files name = false ->
                       entry_path_of valid_files name = Some name) as Hkeep
    by (intros name H; rewrite entry_path_of_unfold, H; reflexivity).
  assert (forall name, In name valid_files ->
            (forall f, In f valid_files -> exists rest, f = first_segment name ++ "/" ++ rest) ->
            root_stripped valid_files name = true) as Hall.
  { intros name Hin H. apply root_stripped_spec. split; [|exact H].
    destruct (H name Hin) as [rest Hr]. rewrite Hr.
    apply in_or_app. right. rewrite slash_str. left. reflexivity. }
  assert (forall name path, In name valid_files ->
            entry_path_of valid_files name = Some path -> name <> [] -> path <> [])
    as Hnonempty.
  { intros name path Hin Hp Hne.
    destruct (root_stripped valid_files name) eqn:Hn.
    - destruct (stripped_nonempty _ _ (Husable _ Hin) Hn) as (rest & _ & Hr & He).
      congruence.
    - rewrite (Hkeep _ Hn) in Hp. congruence. }
  split; [|split; [|split; [|split]]].
  - intros name Hin. split; [|split; [|split; [|split]]].
    + split; [intros H; apply root_stripped_spec in H; tauto | apply Hall; exact Hin].
    + apply stripped_nonempty, Husable, Hin.
    + apply Hkeep.
    + intros other Ho.
      destruct (root_stripped valid_files name) eqn:Hn.
      * apply (root_stripped_uniform _ _ _ Hin Ho Hn).
      * destruct (root_stripped valid_files other) eqn:Hother; [|reflexivity].
        destruct (root_stripped_uniform _ _ _ Ho Hin Hother). congruence.
    + intros path. apply Hnonempty, Hin.
  - intros (f & Hf & Hno) name Hin. apply Hkeep.
    destruct (root_stripped valid_files name) eqn:Hn; [|reflexivity].
    apply root_stripped_spec in Hn as [_ H]. destruct (H f Hf) as [rest ->].
    exfalso. apply Hno. apply in_or_app. right. rewrite slash_str. left. reflexivity.
  - intros (f & g & Hf & Hg & Hne) name Hin. apply Hkeep.
    destruct (root_stripped valid_files name) eqn:Hn; [|reflexivity].
    destruct (root_stripped_uniform _ _ _ Hin Hf Hn) as [_ H1].
    destruct (root_stripped_uniform _ _ _ Hin Hg Hn) as [_ H2]. congruence.
  - intros segment Hs H.
    assert (first_segment (segment ++ "/") = segment) as Hseg.
    { rewrite <- (app_nil_r (segment ++ "/")), <- app_assoc.
      apply first_segment_prefix, Hs. }
    assert (root_stripped valid_files (segment ++ "/") = true) as Hr.
    { apply root_stripped_spec. rewrite Hseg. split; [|exact H].
      apply in_or_app. right. rewrite slash_str. left. reflexivity. }
    rewrite entry_path_of_unfold, Hr. cbv zeta.
    rewrite slash_str. rewrite split1_first by exact Hs. reflexivity.
  - intros environ safe o Ho.
    apply plan_keys in Ho as (info & path & Hin & Hs & Hp & Hk & _).
    assert (In (filename info) valid_files) as Hv.
    { apply valid_files_spec. split; [apply in_map; exact Hin|].
      rewrite skipped_usable in Hs. destruct (usable (filename info)); [reflexivity|discriminate]. }
    exists info, path. split; [exact Hin|]. split; [exact Hv|]. split; [exact Hp|].
    split; [exact Hk|]. apply Hnonempty; assumption.
Qed.

Lemma root_stripping_rule_witness :
  let valid_files := valid_files_of (namelist (map Scenario.file Scenario.scenario_B)) in
  In ("game/main.js" : str) valid_files
  /\ root_stripped valid_files "game/main.js" = true
  /\ exists rest,
       ("game/main.js" : str) = first_segment "game/main.js" ++ "/" ++ rest /\ rest <> [] /\
       entry_path_of valid_files "game/main.js" = Some rest.
Proof.
  intros valid_files.
  assert (In ("game/main.js" : str) valid_files) as Hin by (vm_compute; auto).
  split; [exact Hin|]. split; [vm_compute; reflexivity|].
  apply (proj1 (root_stripping_rule (map Scenario.file Scenario.scenario_B))
           "game/main.js" Hin).
  vm_compute; reflexivity.
Defined.

(** C3, at the input where the code fails it: an archive with a record of
    empty name beside [index.html].  The record is usable and has no
    separator, so that the emptiness test of line 154, which drops an empty
    path after stripping (as it does for [game/] under the root [game]), is
    not reached: the run succeeds and writes the record under the empty
    path, with the key of the game name and a separator. *)
Lemma C3_empty_path_published :
  let run := upload (Scenario.headers "g") Scenario.environ
                    (Scenario.archive ([] :: ["index.html" : str]))
                    Scenario.reliable [] in
  valid_files_of ([] :: ["index.html" : str]) = [] :: ["index.html" : str]
  /\ entry_path_of ([] :: ["index.html" : str]) [] = Some []
  /\ entry_path_of ["game/index.html" : str] "game/" = None
  /\ response run = Return (success "g" "https://games.example/g/index.html")
  /\ map Key (objects (s3 run)) = ["g/" : str; "g/index.html" : str].
Proof. vm_compute. repeat split. Qed.

(** ** Failures *)

(** C8: when the write of an entry raises, the calls before it having
    succeeded, the run ends at once with the error answer of the loop; the
    objects written before the failure are in the bucket, after what the
    bucket held, and nothing else is: none is deleted, no later entry is
    written. *)
Theorem C8_first_write_failure (headers : Headers) (environ : Environ)
    (gameZip : UploadFile) (boto3 : Boto3) (bucket : list S3Object)
    (gameName : str) (infolist : list ZipInfo)
    (written : list S3Object) (failed : S3Object) (later : list (outcome S3Object))
    (e : exception) :
  authorized headers environ gameName ->
  valid_zip gameZip infolist ->
  client_ready environ boto3 ->
  plan environ (sanitize gameName) (valid_files_of (namelist infolist)) infolist
  = map (@Ok _) written ++ Ok failed :: later ->
  (forall i, i < length written -> put_raises boto3 i = None) ->
  put_raises boto3 (length written) = Some e ->
  upload headers environ gameZip boto3 bucket =
  {| response := error ("Error processing zip file: " ++ str_exc e) 500;
     s3 := {| objects := bucket ++ written; put_calls := S (length written) |};
     printed_count := None |}.
Proof.
  intros Ha Hz Hc Hplan Hok He.
  rewrite (upload_publish _ _ _ _ bucket _ _ Ha Hz Hc). unfold publish.
  rewrite upload_loop_plan, Hplan.
  rewrite (run_plan_failure boto3 written failed later e); [reflexivity | |];
    cbn [put_calls untouched]; assumption.
Qed.

Lemma C8_first_write_failure_witness :
  upload (Scenario.headers "g") Scenario.environ (Scenario.archive Scenario.five_files)
         (Scenario.failing_at 2) []
  = {| response := error "Error processing zip file: write failed" 500;
       s3 := {| objects := [ Scenario.object "g/index.html" "text/html";
                             Scenario.object "g/a.css" "text/css" ];
                put_calls := 3 |};
       printed_count := None |}.
Proof.
  apply (C8_first_write_failure
           (Scenario.headers "g") Scenario.environ
           (Scenario.archive Scenario.five_files)
           (Scenario.failing_at 2) []
           "g" (map Scenario.file Scenario.five_files)
           [ Scenario.object "g/index.html" "text/html";
             Scenario.object "g/a.css" "text/css" ]
           (Scenario.object "g/b.js" "application/javascript")
           [ Ok (Scenario.object "g/c.png" "image/png");
             Ok (Scenario.object "g/d.json" "application/json") ]
           (OtherError "write failed")).
  - split; [reflexivity|]. split; [discriminate|].
    exists ("secret" : str). repeat split. discriminate.
  - split; [reflexivity|]. split; [vm_compute; discriminate | vm_compute; reflexivity].
  - repeat split; discriminate.
  - vm_compute; reflexivity.
  - intros [|[|i]] Hi; [reflexivity | reflexivity | cbn in Hi; lia].
  - reflexivity.
Defined.

(** C9: no write is attempted before every earlier stage has passed.  On an
    authorized request, a file that is not a zip, an archive without usable
    files, an archive without index page and a storage client that cannot
    be built each end the run with the error of that stage, the bucket
    untouched and [put_object] never called; and a run in which
    [put_object] was called has passed all of these stages. *)
Theorem C9_no_write_before_stages (headers : Headers) (environ : Environ)
    (gameZip : UploadFile) (boto3 : Boto3) (bucket : list S3Object) (gameName : str) :
  authorized headers environ gameName ->
  let stopped text status :=
    upload headers environ gameZip boto3 bucket =
    {| response := error text status; s3 := untouched bucket; printed_count := None |} in
  (forall text, gameZip = ZipFile (Exc (BadZipFile text)) ->
     stopped ("Invalid zip file format: " ++ text) 400%N)
  /\ (forall infolist, gameZip = ZipFile (Ok infolist) ->
        valid_files_of (namelist infolist) = [] ->
        stopped "Invalid zip file: Contains no usable files." 400%N)
  /\ (forall infolist, gameZip = ZipFile (Ok infolist) ->
        valid_files_of (namelist infolist) <> [] ->
        has_index (valid_files_of (namelist infolist)) = false ->
        stopped "Invalid zip structure: index.html not found at the root level." 400%N)
  /\ (forall infolist, valid_zip gameZip infolist ->
        R2_ACCOUNT_ID environ = None ->
        stopped "Server configuration error: Missing R2 credential ('R2_ACCOUNT_ID')" 500%N)
  /\ (forall infolist, valid_zip gameZip infolist ->
        ~ client_ready environ boto3 ->
        exists text, stopped text 500%N)
  /\ (put_calls (s3 (upload headers environ gameZip boto3 bucket)) <> 0 ->
      exists infolist, valid_zip gameZip infolist /\ client_ready environ boto3).
Proof.
  intros Ha stopped. subst stopped. cbv beta.
  pose proof Ha as Hgo. apply check_request_go in Hgo.
  assert (forall infolist, valid_zip gameZip infolist ->
            validate_zip gameZip = Go (infolist, valid_files_of (namelist infolist))) as Hzip
    by (intros; apply validate_zip_go; auto).
  split; [|split; [|split; [|split; [|split]]]].
  - intros text ->. apply upload_done. unfold prepare. rewrite Hgo. reflexivity.
  - intros infolist -> Hv. apply upload_done. unfold prepare. rewrite Hgo. cbn.
    unfold validate_zip. rewrite Hv. reflexivity.
  - intros infolist -> Hne Hi. apply upload_done. unfold prepare. rewrite Hgo. cbn.
    unfold validate_zip.
    destruct (valid_files_of (namelist infolist)); [congruence|].
    rewrite Hi. reflexivity.
  - intros infolist Hz Hacc. apply upload_done. unfold prepare.
    rewrite Hgo. cbn. rewrite (Hzip _ Hz). cbn. unfold init_client. rewrite Hacc.
    reflexivity.
  - intros infolist Hz Hnot.
    destruct (prepare headers environ gameZip boto3) as [[[safe l] v]|r] eqn:Hp.
    + apply prepare_go in Hp as (g & _ & _ & _ & _ & Hc). contradiction.
    + pose proof (upload_done _ _ _ _ bucket _ Hp) as Hu. revert Hp. unfold prepare.
      rewrite Hgo. cbn. rewrite (Hzip _ Hz). cbn.
      unfold init_client.
      destruct (R2_ACCOUNT_ID environ), (R2_ACCESS_KEY_ID environ),
        (R2_SECRET_ACCESS_KEY environ); cbn;
        try (intros [= <-]; eexists; exact Hu).
      destruct (client_raises boto3) as [[t|t|t]|]; cbn;
        intros [= <-]; eexists; exact Hu.
  - intros Hcalls.
    destruct (upload_cases headers environ gameZip boto3 bucket)
      as [(text & status & Hu & _)|(g & infolist & _ & Hz & Hc & _)].
    + rewrite Hu in Hcalls. cbn in Hcalls. congruence.
    + exists infolist. auto.
Qed.

Lemma C9_no_write_before_stages_witness :
  authorized (Scenario.headers "g") Scenario.no_credentials "g"
  /\ upload (Scenario.headers "g") Scenario.no_credentials
            (Scenario.archive Scenario.scenario_A) Scenario.reliable []
     = {| response :=
            error "Server configuration error: Missing R2 credential ('R2_ACCOUNT_ID')" 500;
          s3 := untouched []; printed_count := None |}.
Proof.
  assert (authorized (Scenario.headers "g") Scenario.no_credentials "g") as Ha.
  { split; [reflexivity|]. split; [discriminate|].
    exists ("secret" : str). repeat split. discriminate. }
  split; [exact Ha|].
  apply (proj1 (proj2 (proj2 (proj2
           (C9_no_write_before_stages (Scenario.headers "g") Scenario.no_credentials
              (Scenario.archive Scenario.scenario_A) Scenario.reliable [] "g" Ha))))
           (map Scenario.file Scenario.scenario_A)).
  - split; [reflexivity|]. split; [vm_compute; discriminate | vm_compute; reflexivity].
  - reflexivity.
Defined.

(** ** Names outside ASCII *)

(** C10: the alphanumeric test of the sanitizer reads the Unicode
    database: a letter or digit of any script, such as U+00E9 or U+65E5,
    is kept as it is.  A game name of such characters is its own sanitized
    name, and it is in the answer, in the entry URL and at the head of the
    key of every object the run writes. *)
Theorem C10_unicode_names :
  isalnum 233%N = true /\ isalnum 26085%N = true /\ (127 < 233)%N
  /\ (forall c, isalnum c = true -> sanitize [c] = [c])
  /\ (forall headers environ gameZip boto3 bucket body gameName,
        x_game_name headers = Some gameName ->
        forallb isalnum gameName = true ->
        response (upload headers environ gameZip boto3 bucket) = Return body ->
        dict_get "gameName" body = Some gameName
        /\ (exists base, dict_get "gameUrl" body
                         = Some (rstrip base (chr "/") ++ "/" ++ gameName ++ "/index.html"))
        /\ exists objs,
             objects (s3 (upload headers environ gameZip boto3 bucket)) = bucket ++ objs
             /\ forall o, In o objs -> exists entry_path, Key o = gameName ++ "/" ++ entry_path)
  /\ (let name := [233; 26085]%N in
      let run := upload (Scenario.headers name) Scenario.environ
                        (Scenario.archive Scenario.scenario_A) Scenario.reliable [] in
      response run = Return (success name ("https://games.example/" ++ name ++ "/index.html"))
      /\ map Key (objects (s3 run)) = [name ++ "/index.html"; name ++ "/style.css"]).
Proof.
  assert (forall name, forallb isalnum name = true -> sanitize name = name) as Hkeep.
  { intros name H. apply sanitize_kept. rewrite forallb_forall in *.
    intros c Hc. unfold kept. rewrite (H c Hc). reflexivity. }
  split; [reflexivity|]. split; [reflexivity|]. split; [reflexivity|].
  split; [intros c Hc; apply Hkeep; cbn [forallb]; rewrite Hc; reflexivity|].
  split; [|vm_compute; auto].
  intros headers environ gameZip boto3 bucket body g Hg Halnum H.
  apply upload_return in H
    as (g' & infolist & base & objs & (Hg' & _) & _ & _ & Hb & -> & Hplan & Hs & _).
  assert (g' = g) as -> by congruence.
  rewrite (Hkeep _ Halnum) in *.
  split; [reflexivity|]. split; [exists base; reflexivity|].
  exists objs. rewrite Hs. split; [reflexivity|].
  intros o Ho.
  assert (In (Ok o) (plan environ g (valid_files_of (namelist infolist)) infolist)) as Hin
    by (rewrite Hplan; apply in_map; exact Ho).
  apply plan_keys in Hin as (info & p & _ & _ & _ & Hk & _). eauto.
Qed.

(** ** Further properties *)

(** A usable entry is never dropped by the loop. *)
Lemma usable_entry_published (valid_files : list str) (name : str) :
  usable name = true -> entry_path_of valid_files name <> None.
Proof.
  intros Hu. destruct (root_stripped valid_files name) eqn:Hs.
  - destruct (stripped_nonempty _ _ Hu Hs) as (rest & _ & _ & ->). discriminate.
  - rewrite entry_path_of_unfold, Hs. discriminate.
Qed.

Lemma plan_length (environ : Environ) (safe_game_name : str) (valid_files : list str)
    (infolist : list ZipInfo) :
  length (plan environ safe_game_name valid_files infolist)
  = length (valid_files_of (namelist infolist)).
Proof.
  induction infolist as [|info rest IH]; [reflexivity|].
  change (plan environ safe_game_name valid_files (info :: rest))
    with (planned environ safe_game_name valid_files info
          ++ plan environ safe_game_name valid_files rest).
  rewrite length_app, IH. unfold planned. rewrite skipped_usable.
  cbn [namelist map valid_files_of filter].
  destruct (usable (filename info)) eqn:Hu; cbn [negb]; [|reflexivity].
  pose proof (usable_entry_published valid_files _ Hu) as Hp.
  destruct (entry_path_of valid_files (filename info)); [|congruence].
  destruct (content info), (R2_BUCKET_NAME environ); reflexivity.
Qed.

(** A successful run writes one object for each usable entry of the
    archive: the bucket grows by as many objects as the archive has usable
    entries, and that number is the count the run prints. *)
Theorem publish_writes_every_usable_entry (headers : Headers) (environ : Environ)
    (gameZip : UploadFile) (boto3 : Boto3) (bucket : list S3Object) (body : dict) :
  response (upload headers environ gameZip boto3 bucket) = Return body ->
  exists infolist objs,
    gameZip = ZipFile (Ok infolist) /\
    objects (s3 (upload headers environ gameZip boto3 bucket)) = bucket ++ objs /\
    length objs = length (valid_files_of (namelist infolist)) /\
    printed_count (upload headers environ gameZip boto3 bucket)
    = Some (length (valid_files_of (namelist infolist))).
Proof.
  intros H.
  apply upload_return in H
    as (g & infolist & base & objs & _ & (Hz & _) & _ & _ & _ & Hplan & Hs & Hn).
  assert (length objs = length (valid_files_of (namelist infolist))) as Hlen.
  { rewrite <- (plan_length environ (sanitize g) (valid_files_of (namelist infolist))).
    rewrite Hplan. symmetry. apply length_map. }
  exists infolist, objs. rewrite Hs, Hn, Hlen. auto.
Qed.

Lemma publish_writes_every_usable_entry_witness :
  exists infolist objs,
    Scenario.archive Scenario.scenario_A = ZipFile (Ok infolist) /\
    objects (s3 (upload (Scenario.headers "g") Scenario.environ
                   (Scenario.archive Scenario.scenario_A) Scenario.reliable []))
    = [] ++ objs /\
    length objs = length (valid_files_of (namelist infolist)) /\
    printed_count (upload (Scenario.headers "g") Scenario.environ
                     (Scenario.archive Scenario.scenario_A) Scenario.reliable [])
    = Some (length (valid_files_of (namelist infolist))).
Proof.
  apply (publish_writes_every_usable_entry (Scenario.headers "g") Scenario.environ
           (Scenario.archive Scenario.scenario_A) Scenario.reliable []
           (success "g" "https://games.example/g/index.html")).
  vm_compute; reflexivity.
Defined.

(** The index page that validation finds need not be the page the entry
    URL names: an archive whose only index page is nested beside a file at
    the top passes validation, nothing is stripped, and the answer names
    the key [g/index.html], which the run has not written. *)
Theorem entry_url_may_name_no_object :
  let run := upload (Scenario.headers "g") Scenario.environ
                    (Scenario.archive ["assets/index.html" : str; "main.js" : str])
                    Scenario.reliable [] in
  response run = Return (success "g" "https://games.example/g/index.html")
  /\ map Key (objects (s3 run)) = ["g/assets/index.html" : str; "g/main.js" : str]
  /\ existsb (PyStr.eqb (key_of "g" "index.html")) (map Key (objects (s3 run))) = false.
Proof. vm_compute. repeat split. Qed.

(** A failed write is never tried again and no write follows it: the
    client has received one call of [put_object] for each object the run
    has written, and one more only when the last call raised, in which case
    the run answers with the error of that call. *)
Theorem no_call_after_failure (headers : Headers) (environ : Environ)
    (gameZip : UploadFile) (boto3 : Boto3) (bucket : list S3Object) :
  exists objs,
    objects (s3 (upload headers environ gameZip boto3 bucket)) = bucket ++ objs /\
    (put_calls (s3 (upload headers environ gameZip boto3 bucket)) = length objs \/
     (put_calls (s3 (upload headers environ gameZip boto3 bucket)) = S (length objs) /\
      exists e,
        put_raises boto3 (length objs) = Some e /\
        response (upload headers environ gameZip boto3 bucket)
        = error ("Error processing zip file: " ++ str_exc e) 500)).
Proof.
  destruct (upload_cases headers environ gameZip boto3 bucket)
    as [(text & status & -> & _)|(g & infolist & _ & _ & _ & ->)].
  - exists []. cbn. rewrite app_nil_r. auto.
  - unfold publish. rewrite upload_loop_plan.
    destruct (run_plan_calls boto3
                (plan environ (sanitize g) (valid_files_of (namelist infolist)) infolist)
                (untouched bucket) 0) as (objs & Ho & Hc).
    exists objs.
    destruct (run_plan _ _ _ _) as [[m|e] s3'];
      cbn [s3 snd fst objects put_calls untouched response Nat.add] in *;
      (split; [exact Ho|]).
    + destruct Hc as [Hc|(_ & e & He & _)]; [left; exact Hc | discriminate He].
    + destruct Hc as [Hc|(Hc & e' & [= <-] & He)]; [left; exact Hc|].
      right. split; [exact Hc|]. exists e. split; [exact He | reflexivity].
Qed.

(** ** Rejected requests and the shape of the answers *)

(** A stage that stops the run answers with the status 400, 401 or 500. *)
Lemma prepare_done_status (headers : Headers) (environ : Environ)
    (gameZip : UploadFile) (boto3 : Boto3) (r : retval) :
  prepare headers environ gameZip boto3 = Done r ->
  exists text status,
    r = error text status /\ (status = 400 \/ status = 401 \/ status = 500)%N.
Proof.
  unfold prepare, check_request, validate_zip, init_client, bind.
  intros H.
  repeat match type of H with
         | context [match ?x with _ => _ end] =>
             lazymatch x with
             | context [match _ with _ => _ end] => fail
             | _ => destruct x
             end
         end;
    try discriminate H; injection H as <-; unfold error;
    eexists; eexists; (split; [reflexivity|]);
    first [left; reflexivity | right; left; reflexivity | right; right; reflexivity].
Qed.

(** Without the configured password, and without both headers and a game
    name, a request is answered with an error of status 400, 401 or 500,
    whatever file it carries; the bucket is untouched and the storage
    service never called. *)
Theorem unauthorized_request_rejected (headers : Headers) (environ : Environ)
    (gameZip : UploadFile) (boto3 : Boto3) (bucket : list S3Object) :
  (forall gameName, ~ authorized headers environ gameName) ->
  exists text status,
    upload headers environ gameZip boto3 bucket =
    {| response := error text status; s3 := untouched bucket; printed_count := None |}
    /\ (status = 400 \/ status = 401 \/ status = 500)%N.
Proof.
  intros Hno.
  destruct (prepare headers environ gameZip boto3) as [[[safe infolist] valid]|r] eqn:Hp.
  - apply prepare_go in Hp as (g & Ha & _). destruct (Hno g Ha).
  - destruct (prepare_done_status _ _ _ _ _ Hp) as (text & status & -> & Hs).
    exists text, status. split; [apply upload_done; exact Hp | exact Hs].
Qed.

Lemma unauthorized_request_rejected_witness :
  (forall gameName,
     ~ authorized (Scenario.wrong_password "g") Scenario.environ gameName)
  /\ exists text status,
       upload (Scenario.wrong_password "g") Scenario.environ
              (Scenario.archive Scenario.scenario_A) Scenario.reliable []
       = {| response := error text status; s3 := untouched [];
            printed_count := None |}
       /\ (status = 400 \/ status = 401 \/ status = 500)%N.
Proof.
  assert (forall gameName,
            ~ authorized (Scenario.wrong_password "g") Scenario.environ gameName) as Hno
    by (intros g (_ & _ & p & Hp & He & _); vm_compute in Hp, He; congruence).
  split; [exact Hno|].
  apply (unauthorized_request_rejected (Scenario.wrong_password "g") Scenario.environ
           (Scenario.archive Scenario.scenario_A) Scenario.reliable [] Hno).
Defined.


(** A request that is rejected at one stage is answered without a look at
    what the later stages read: the answer to an unauthorized request does
    not depend on the file nor on the storage service, and the answer to an
    authorized request with an invalid file does not depend on the storage
    service. *)
Theorem earlier_stage_decides (headers : Headers) (environ : Environ)
    (bucket : list S3Object) :
  ((forall gameName, ~ authorized headers environ gameName) ->
   forall gameZip gameZip' boto3 boto3',
     upload headers environ gameZip boto3 bucket
     = upload headers environ gameZip' boto3' bucket)
  /\ (forall gameZip,
        (forall infolist, ~ valid_zip gameZip infolist) ->
        forall boto3 boto3',
          upload headers environ gameZip boto3 bucket
          = upload headers environ gameZip boto3' bucket).
Proof.
  split.
  - intros Hno gameZip gameZip' boto3 boto3'.
    destruct (check_request headers environ) as [g|r] eqn:Hc.
    + apply check_request_go in Hc. destruct (Hno g Hc).
    + unfold upload, prepare. rewrite Hc. reflexivity.
  - intros gameZip Hno boto3 boto3'.
    destruct (validate_zip gameZip) as [[l v]|r] eqn:Hz.
    + apply validate_zip_go in Hz as [Hz _]. destruct (Hno l Hz).
    + unfold upload, prepare.
      destruct (check_request headers environ); cbn; [rewrite Hz|]; reflexivity.
Qed.

Lemma earlier_stage_decides_witness :
  upload (Scenario.wrong_password "g") Scenario.environ
         (Scenario.archive Scenario.scenario_A) Scenario.reliable []
  = upload (Scenario.wrong_password "g") Scenario.environ
           (ZipFile (Exc (BadZipFile "File is not a zip file"))) (Scenario.failing_at 0) [].
Proof.
  apply (proj1 (earlier_stage_decides (Scenario.wrong_password "g") Scenario.environ [])).
  intros g (_ & _ & p & Hp & He & _). vm_compute in Hp, He. congruence.
Defined.

(** ** What the loop writes *)

Lemma plan_app (environ : Environ) (safe_game_name : str) (valid_files : list str)
    (before after : list ZipInfo) :
  plan environ safe_game_name valid_files (before ++ after)
  = plan environ safe_game_name valid_files before
    ++ plan environ safe_game_name valid_files after.
Proof. unfold plan. apply flat_map_app. Qed.

(** The object the loop prepares for a usable record that can be read. *)
Lemma planned_readable (environ : Environ) (safe_game_name : str)
    (valid_files : list str) (info : ZipInfo) (body : bytes) (bucket_name : str) :
  usable (filename info) = true -> content info = Ok body ->
  R2_BUCKET_NAME environ = Some bucket_name ->
  exists entry_path,
    entry_path_of valid_files (filename info) = Some entry_path /\
    planned environ safe_game_name valid_files info
    = [Ok {| Bucket := bucket_name; Key := key_of safe_game_name entry_path;
             Body := body; ContentType := content_type_of entry_path |}].
Proof.
  intros Hu Hc Hb. unfold planned. rewrite skipped_usable, Hu, Hc, Hb. cbn [negb].
  pose proof (usable_entry_published valid_files _ Hu) as Hp.
  destruct (entry_path_of valid_files (filename info)) as [p|]; [|congruence].
  exists p. split; reflexivity.
Qed.

(** With the bucket name set, records that can all be read give a plan of
    objects, one for each usable record. *)
Lemma plan_readable (environ : Environ) (safe_game_name : str)
    (valid_files : list str) (infolist : list ZipInfo) (bucket_name : str) :
  R2_BUCKET_NAME environ = Some bucket_name ->
  (forall info, In info infolist -> exists body, content info = Ok body) ->
  exists objs,
    plan environ safe_game_name valid_files infolist = map (@Ok _) objs /\
    length objs = length (valid_files_of (namelist infolist)).
Proof.
  intros Hb. induction infolist as [|info rest IH]; intros Hread.
  - exists []. split; reflexivity.
  - destruct IH as (objs & Hplan & Hlen); [intros i Hi; apply Hread; right; exact Hi|].
    change (plan environ safe_game_name valid_files (info :: rest))
      with (planned environ safe_game_name valid_files info
            ++ plan environ safe_game_name valid_files rest).
    cbn [namelist map valid_files_of filter]. fold (namelist rest).
    fold (valid_files_of (namelist rest)).
    destruct (usable (filename info)) eqn:Hu.
    + destruct (Hread info (or_introl eq_refl)) as [body Hc].
      destruct (planned_readable environ safe_game_name valid_files info body
                  bucket_name Hu Hc Hb) as (p & _ & ->).
      eexists (_ :: objs). cbn [map app length]. rewrite Hplan, Hlen.
      split; reflexivity.
    + exists objs. unfold planned. rewrite skipped_usable, Hu. cbn [negb app].
      split; assumption.
Qed.

(** The loop commits a leading part of its plan, in order. *)
Lemma run_plan_prefix (boto3 : Boto3) (todo : list (outcome S3Object)) (s3 : S3)
    (n : nat) :
  exists objs rest,
    todo = map (@Ok _) objs ++ rest /\
    objects (snd (run_plan boto3 todo s3 n)) = objects s3 ++ objs.
Proof.
  revert s3 n; induction todo as [|[o|e] todo IH]; intros s3 n; cbn [run_plan].
  - exists [], []. cbn. rewrite app_nil_r. split; reflexivity.
  - unfold put_object. destruct (put_raises boto3 (put_calls s3)).
    + exists [], (Ok o :: todo). cbn. rewrite app_nil_r. split; reflexivity.
    + destruct (IH {| objects := objects s3 ++ [o]; put_calls := S (put_calls s3) |} (S n))
        as (objs & rest & -> & Ho). cbn [objects] in Ho.
      exists (o :: objs), rest. rewrite Ho, <- app_assoc. split; reflexivity.
  - exists [], (Exc e :: todo). cbn. rewrite app_nil_r. split; reflexivity.
Qed.

(** Every object a run adds to the bucket is an object of the plan of an
    authorized request with a valid archive. *)
Lemma upload_written (headers : Headers) (environ : Environ) (gameZip : UploadFile)
    (boto3 : Boto3) (bucket : list S3Object) :
  exists objs,
    objects (s3 (upload headers environ gameZip boto3 bucket)) = bucket ++ objs /\
    forall o, In o objs ->
      exists gameName infolist,
        authorized headers environ gameName /\ valid_zip gameZip infolist /\
        In (Ok o) (plan environ (sanitize gameName)
                        (valid_files_of (namelist infolist)) infolist).
Proof.
  destruct (upload_cases headers environ gameZip boto3 bucket)
    as [(text & status & -> & _)|(g & infolist & Ha & Hz & _ & ->)].
  - exists []. cbn. rewrite app_nil_r. split; [reflexivity | contradiction].
  - unfold publish. rewrite upload_loop_plan.
    destruct (run_plan_prefix boto3
                (plan environ (sanitize g) (valid_files_of (namelist infolist)) infolist)
                (untouched bucket) 0) as (objs & rest & Hplan & Ho).
    exists objs. split.
    + destruct (run_plan _ _ _ _) as [[m|e] s3']; cbn [s3 snd objects] in *; exact Ho.
    + intros o Hin. exists g, infolist. split; [exact Ha|]. split; [exact Hz|].
      rewrite Hplan. apply in_or_app. left. apply in_map. exact Hin.
Qed.

(** An object of the plan goes to the configured bucket. *)
Lemma plan_bucket (environ : Environ) (safe_game_name : str) (valid_files : list str)
    (infolist : list ZipInfo) (o : S3Object) :
  In (Ok o) (plan environ safe_game_name valid_files infolist) ->
  R2_BUCKET_NAME environ = Some (Bucket o).
Proof.
  unfold plan. rewrite in_flat_map. intros (info & _ & Ho).
  unfold planned in Ho. destruct (skipped info); [contradiction|].
  destruct (entry_path_of valid_files (filename info)); [|contradiction].
  destruct (content info); [|destruct Ho as [Ho|[]]; discriminate].
  destruct (R2_BUCKET_NAME environ); destruct Ho as [Ho|[]]; [|discriminate].
  injection Ho as <-. reflexivity.
Qed.

(** Whatever its outcome, a run writes nothing but the files of the
    archive: each object it adds goes to the configured bucket, holds the
    content of a usable record as it was read, has the content type of its
    path, and has for key the sanitized game name, a separator and the path
    of the record, whole or without its first segment. *)
Theorem written_objects_come_from_archive (headers : Headers) (environ : Environ)
    (gameZip : UploadFile) (boto3 : Boto3) (bucket : list S3Object) :
  exists objs,
    objects (s3 (upload headers environ gameZip boto3 bucket)) = bucket ++ objs /\
    forall o, In o objs ->
      exists gameName infolist info entry_path,
        x_game_name headers = Some gameName /\
        gameZip = ZipFile (Ok infolist) /\
        In info infolist /\ usable (filename info) = true /\
        R2_BUCKET_NAME environ = Some (Bucket o) /\
        content info = Ok (Body o) /\
        Key o = sanitize gameName ++ "/" ++ entry_path /\
        ContentType o = content_type_of entry_path /\
        (entry_path = filename info \/
         filename info = first_segment (filename info) ++ "/" ++ entry_path).
Proof.
  destruct (upload_written headers environ gameZip boto3 bucket) as (objs & Ho & Hall).
  exists objs. split; [exact Ho|]. intros o Hin.
  destruct (Hall o Hin) as (g & infolist & (Hg & _) & (Hz & _) & Hplan).
  pose proof (plan_bucket _ _ _ _ _ Hplan) as Hb.
  apply plan_keys in Hplan as (info & p & Hi & Hs & Hp & Hk & Hc & Hbody).
  exists g, infolist, info, p.
  assert (usable (filename info) = true) as Hu
    by (rewrite skipped_usable in Hs; destruct (usable (filename info));
        [reflexivity | discriminate]).
  repeat (split; [assumption|]).
  set (valid_files := valid_files_of (namelist infolist)) in *.
  destruct (root_stripped valid_files (filename info)) eqn:Hr.
  - destruct (stripped_nonempty _ _ Hu Hr) as (rest & Hn & _ & He).
    right. congruence.
  - rewrite entry_path_of_unfold, Hr in Hp. left. congruence.
Qed.

(** The sanitized game name has the length of the game name and holds no
    separator, so that the keys of a game all lie under its own name: the
    first segment of the key of every object a run writes is the sanitized
    game name, which is not empty. *)
Theorem keys_under_game_name (headers : Headers) (environ : Environ)
    (gameZip : UploadFile) (boto3 : Boto3) (bucket : list S3Object) :
  (forall name,
     length (sanitize name) = length name /\ ~ In (chr "/") (sanitize name))
  /\ exists objs,
       objects (s3 (upload headers environ gameZip boto3 bucket)) = bucket ++ objs /\
       forall o, In o objs ->
         exists gameName,
           x_game_name headers = Some gameName /\ sanitize gameName <> [] /\
           first_segment (Key o) = sanitize gameName.
Proof.
  assert (forall name, ~ In (chr "/") (sanitize name)) as Hslash.
  { intros name. rewrite sanitize_map, in_map_iff. intros (c & Hc & _).
    destruct (kept c) eqn:Hk; [subst c; discriminate Hk | discriminate Hc]. }
  split.
  - intros name. split; [rewrite sanitize_map; apply length_map | apply Hslash].
  - destruct (upload_written headers environ gameZip boto3 bucket) as (objs & Ho & Hall).
    exists objs. split; [exact Ho|]. intros o Hin.
    destruct (Hall o Hin) as (g & infolist & (Hg & Hne & _) & _ & Hplan).
    apply plan_keys in Hplan as (info & p & _ & _ & _ & Hk & _).
    exists g. split; [exact Hg|]. split.
    + intros H. apply Hne. apply (f_equal (@length _)) in H.
      rewrite sanitize_map, length_map in H. destruct g; [reflexivity | discriminate H].
    + rewrite Hk. apply first_segment_prefix, Hslash.
Qed.

(** ** Failures in the loop *)

(** When the name of the bucket is not configured, the loop stops at its
    first usable record, before any call of [put_object]: the answer is the
    error of the loop, the bucket is untouched. *)
Theorem missing_bucket_name_stops_upload (headers : Headers) (environ : Environ)
    (gameZip : UploadFile) (boto3 : Boto3) (bucket : list S3Object)
    (gameName : str) (infolist : list ZipInfo) :
  authorized headers environ gameName -> valid_zip gameZip infolist ->
  client_ready environ boto3 -> R2_BUCKET_NAME environ = None ->
  exists e,
    upload headers environ gameZip boto3 bucket =
    {| response := error ("Error processing zip file: " ++ str_exc e) 500;
       s3 := untouched bucket; printed_count := None |} /\
    ((forall info, In info infolist -> exists body, content info = Ok body) ->
     e = missing "R2_BUCKET_NAME").
Proof.
  intros Ha Hz Hc Hb.
  rewrite (upload_publish _ _ _ _ bucket _ _ Ha Hz Hc). unfold publish.
  rewrite upload_loop_plan.
  set (todo := plan environ (sanitize gameName) (valid_files_of (namelist infolist))
                    infolist).
  assert (forall x, In x todo ->
            exists e, x = Exc e /\
              ((forall info, In info infolist -> exists body, content info = Ok body) ->
               e = missing "R2_BUCKET_NAME")) as Hexc.
  { intros x. unfold todo, plan. rewrite in_flat_map. intros (info & Hi & Hx).
    unfold planned in Hx. rewrite Hb in Hx.
    destruct (skipped info); [contradiction|].
    destruct (entry_path_of _ (filename info)); [|contradiction].
    destruct (content info) as [body|e] eqn:Hcont; destruct Hx as [<-|[]].
    - eexists. split; [reflexivity | reflexivity].
    - exists e. split; [reflexivity|]. intros Hread.
      destruct (Hread info Hi) as [body Hbody]. congruence. }
  assert (todo <> []) as Hne.
  { intros H. apply (f_equal (@length _)) in H. unfold todo in H.
    rewrite plan_length in H. destruct Hz as (_ & Hv & _).
    destruct (valid_files_of (namelist infolist)); [congruence | discriminate H]. }
  destruct todo as [|x rest]; [congruence|].
  destruct (Hexc x (or_introl eq_refl)) as (e & -> & He).
  exists e. split; [reflexivity | exact He].
Qed.

Lemma missing_bucket_name_stops_upload_witness :
  exists e,
    upload (Scenario.headers "g") Scenario.no_bucket_name
           (Scenario.archive Scenario.scenario_A) Scenario.reliable [] =
    {| response := error ("Error processing zip file: " ++ str_exc e) 500;
       s3 := untouched []; printed_count := None |} /\
    ((forall info, In info (map Scenario.file Scenario.scenario_A) ->
                   exists body, content info = Ok body) ->
     e = missing "R2_BUCKET_NAME").
Proof.
  apply (missing_bucket_name_stops_upload (Scenario.headers "g") Scenario.no_bucket_name
           (Scenario.archive Scenario.scenario_A) Scenario.reliable [] "g"
           (map Scenario.file Scenario.scenario_A)).
  - split; [reflexivity|]. split; [discriminate|].
    exists ("secret" : str). repeat split. discriminate.
  - split; [reflexivity|]. split; [vm_compute; discriminate | vm_compute; reflexivity].
  - repeat split; discriminate.
  - reflexivity.
Defined.

(** When a usable record cannot be read, the records before it having been
    read and written, the run ends with the error of the loop; the bucket
    has gained one object for each usable record before the unreadable
    one, and [put_object] was not called for it nor for any later record. *)
Theorem unreadable_record_stops_upload (headers : Headers) (environ : Environ)
    (gameZip : UploadFile) (boto3 : Boto3) (bucket : list S3Object)
    (gameName bucket_name : str) (before after : list ZipInfo) (info : ZipInfo)
    (e : exception) :
  authorized headers environ gameName ->
  valid_zip gameZip (before ++ info :: after) ->
  client_ready environ boto3 ->
  R2_BUCKET_NAME environ = Some bucket_name ->
  (forall i, In i before -> exists body, content i = Ok body) ->
  usable (filename info) = true -> content info = Exc e ->
  (forall n, n < length (valid_files_of (namelist before)) ->
             put_raises boto3 n = None) ->
  exists written,
    length written = length (valid_files_of (namelist before)) /\
    upload headers environ gameZip boto3 bucket =
    {| response := error ("Error processing zip file: " ++ str_exc e) 500;
       s3 := {| objects := bucket ++ written; put_calls := length written |};
       printed_count := None |}.
Proof.
  intros Ha Hz Hc Hb Hread Hu He Hput.
  rewrite (upload_publish _ _ _ _ bucket _ _ Ha Hz Hc). unfold publish.
  rewrite upload_loop_plan.
  set (valid_files := valid_files_of (namelist (before ++ info :: after))).
  change (before ++ info :: after) with (before ++ [info] ++ after).
  rewrite !plan_app.
  destruct (plan_readable environ (sanitize gameName) valid_files before bucket_name
              Hb Hread) as (written & -> & Hlen).
  assert (plan environ (sanitize gameName) valid_files [info] = [Exc e]) as ->.
  { unfold plan. cbn [flat_map]. rewrite app_nil_r. unfold planned.
    rewrite skipped_usable, Hu, He. cbn [negb].
    pose proof (usable_entry_published valid_files _ Hu) as Hp.
    destruct (entry_path_of valid_files (filename info)); [reflexivity | congruence]. }
  exists written. split; [exact Hlen|].
  assert (forall todo s n,
            (forall i, i < length written -> put_raises boto3 (put_calls s + i) = None) ->
            run_plan boto3 (map (@Ok _) written ++ Exc e :: todo) s n
            = (Exc e, {| objects := objects s ++ written;
                         put_calls := put_calls s + length written |})) as Hrun.
  { clear. induction written as [|o written IH]; intros todo s n H; cbn [map app run_plan].
    - rewrite app_nil_r, Nat.add_0_r. destruct s; reflexivity.
    - unfold put_object. rewrite <- (Nat.add_0_r (put_calls s)) at 1.
      rewrite H by (cbn; lia). rewrite IH.
      + cbn [objects put_calls length]. rewrite <- app_assoc. cbn [app].
        do 2 f_equal. lia.
      + intros i Hi. cbn [put_calls].
        replace (S (put_calls s) + i) with (put_calls s + S i) by lia.
        apply H. cbn; lia. }
  cbn [app]. rewrite Hrun; [reflexivity|].
  intros i Hi. cbn [untouched put_calls]. apply Hput. rewrite <- Hlen. exact Hi.
Qed.

Lemma unreadable_record_stops_upload_witness :
  exists written,
    length written
    = length (valid_files_of (namelist (map Scenario.file ["index.html" : str; "a.css" : str])))
    /\ upload (Scenario.headers "g") Scenario.environ
              (ZipFile (Ok (map Scenario.file ["index.html" : str; "a.css" : str]
                            ++ Scenario.unreadable "b.js"
                            :: map Scenario.file ["c.png" : str])))
              Scenario.reliable []
       = {| response :=
              error ("Error processing zip file: "
                     ++ str_exc (BadZipFile "Bad CRC-32 for file")) 500;
            s3 := {| objects := [] ++ written; put_calls := length written |};
            printed_count := None |}.
Proof.
  apply (unreadable_record_stops_upload (Scenario.headers "g") Scenario.environ
           _ Scenario.reliable [] "g" "games"
           (map Scenario.file ["index.html" : str; "a.css" : str])
           (map Scenario.file ["c.png" : str]) (Scenario.unreadable "b.js")
           (BadZipFile "Bad CRC-32 for file")).
  - split; [reflexivity|]. split; [discriminate|].
    exists ("secret" : str). repeat split. discriminate.
  - split; [reflexivity|]. split; [vm_compute; discriminate | vm_compute; reflexivity].
  - repeat split; discriminate.
  - reflexivity.
  - intros i Hi. exists []. cbn in Hi. destruct Hi as [<-|[<-|[]]]; reflexivity.
  - vm_compute; reflexivity.
  - reflexivity.
  - reflexivity.
Defined.

(** When the base URL is not configured and every write has succeeded, the
    run has written all the objects of the archive and printed their count,
    and then raises the [KeyError] of line 190 instead of answering. *)
Theorem missing_base_url_raises_after_upload (headers : Headers) (environ : Environ)
    (gameZip : UploadFile) (boto3 : Boto3) (bucket : list S3Object)
    (gameName bucket_name : str) (infolist : list ZipInfo) :
  authorized headers environ gameName -> valid_zip gameZip infolist ->
  client_ready environ boto3 ->
  R2_BUCKET_NAME environ = Some bucket_name ->
  (forall info, In info infolist -> exists body, content info = Ok body) ->
  (forall n, put_raises boto3 n = None) ->
  PUBLIC_GAME_URL_BASE environ = None ->
  exists objs,
    length objs = length (valid_files_of (namelist infolist)) /\
    upload headers environ gameZip boto3 bucket =
    {| response := Raise (missing "PUBLIC_GAME_URL_BASE");
       s3 := {| objects := bucket ++ objs; put_calls := length objs |};
       printed_count := Some (length objs) |}.
Proof.
  intros Ha Hz Hc Hb Hread Hput Hbase.
  destruct (plan_readable environ (sanitize gameName)
              (valid_files_of (namelist infolist)) infolist bucket_name Hb Hread)
    as (objs & Hplan & Hlen).
  exists objs. split; [exact Hlen|].
  rewrite (upload_publish _ _ _ _ bucket _ _ Ha Hz Hc). unfold publish.
  rewrite upload_loop_plan, Hplan, run_plan_all by (intros; apply Hput).
  rewrite Hbase. reflexivity.
Qed.

Lemma missing_base_url_raises_after_upload_witness :
  exists objs,
    length objs
    = length (valid_files_of (namelist (map Scenario.file Scenario.scenario_A))) /\
    upload (Scenario.headers "g") Scenario.no_base_url
           (Scenario.archive Scenario.scenario_A) Scenario.reliable [] =
    {| response := Raise (missing "PUBLIC_GAME_URL_BASE");
       s3 := {| objects := [] ++ objs; put_calls := length objs |};
       printed_count := Some (length objs) |}.
Proof.
  apply (missing_base_url_raises_after_upload (Scenario.headers "g") Scenario.no_base_url
           (Scenario.archive Scenario.scenario_A) Scenario.reliable [] "g" "games"
           (map Scenario.file Scenario.scenario_A)).
  - split; [reflexivity|]. split; [discriminate|].
    exists ("secret" : str). repeat split. discriminate.
  - split; [reflexivity|]. split; [vm_compute; discriminate | vm_compute; reflexivity].
  - repeat split; discriminate.
  - reflexivity.
  - intros info Hi. exists []. cbn in Hi.
    destruct Hi as [<-|[<-|[<-|[]]]]; reflexivity.
  - reflexivity.
  - reflexivity.
Defined.

(** ** The password *)

(** The function returns the pair of an error dict and the status code 401
    exactly when both headers are present, a password is configured, and
    the password sent is not the configured one; the game name plays no
    role, and with no password configured the function never returns the
    code 401. *)
Theorem unauthorized_iff_wrong_password (headers : Headers) (environ : Environ)
    (gameZip : UploadFile) (boto3 : Boto3) (bucket : list S3Object) :
  (exists text,
     response (upload headers environ gameZip boto3 bucket) = error text 401)
  <->
  (exists gameName password expected,
     x_game_name headers = Some gameName /\
     x_upload_password headers = Some password /\
     UPLOAD_PASSWORD environ = Some expected /\
     expected <> [] /\ password <> expected).
Proof.
  split.
  - intros [text H]. unfold upload in H.
    destruct (prepare headers environ gameZip boto3) as [[[safe l] v]|r] eqn:Hp.
    { unfold publish in H. destruct (upload_loop _ _ _ _ _ _ _) as [[n|e] s3'];
        cbn [response] in H; [|discriminate H].
      destruct (PUBLIC_GAME_URL_BASE environ); discriminate H. }
    cbn [response] in H. subst r. unfold prepare in Hp.
    destruct (check_request headers environ) as [g|r] eqn:Hc; cbn [bind] in Hp.
    { exfalso. unfold validate_zip, init_client, bind in Hp.
      repeat match type of Hp with
             | context [match ?x with _ => _ end] =>
                 lazymatch x with
                 | context [match _ with _ => _ end] => fail
                 | _ => destruct x
                 end
             end; discriminate Hp. }
    injection Hp as ->. unfold check_request in Hc.
    destruct (x_game_name headers) as [g|]; [|discriminate Hc].
    destruct (x_upload_password headers) as [p|]; [|discriminate Hc].
    destruct (UPLOAD_PASSWORD environ) as [x|]; [|discriminate Hc].
    destruct (falsy x) eqn:Hx; [discriminate Hc|].
    destruct (falsy p || negb (PyStr.eqb p x)) eqn:Hpx.
    + exists g, p, x. repeat (split; [reflexivity|]).
      split; [apply falsy_false; exact Hx|]. intros ->.
      rewrite Hx in Hpx. cbn in Hpx.
      rewrite (proj2 (eqb_eq x x) eq_refl) in Hpx. discriminate Hpx.
    + destruct (falsy g); discriminate Hc.
  - intros (g & p & x & Hg & Hp & Hx & Hne & Hdiff).
    exists ("Unauthorized: Invalid password." : str). unfold upload, prepare, check_request.
    rewrite Hg, Hp, Hx. apply falsy_false in Hne. rewrite Hne.
    assert (falsy p || negb (PyStr.eqb p x) = true) as ->.
    { destruct (PyStr.eqb p x) eqn:E; [|apply orb_true_r].
      apply eqb_eq in E. contradiction. }
    reflexivity.
Qed.

(** ** The entry URL *)

Lemma lstrip_repeat (c : char) (n : nat) (s : str) :
  lstrip (repeat c n ++ s) c = lstrip s c.
Proof.
  induction n as [|n IH]; [reflexivity|]. cbn [repeat app lstrip].
  rewrite N.eqb_refl. exact IH.
Qed.

Lemma rstrip_repeat (s : str) (c : char) (n : nat) :
  rstrip (s ++ repeat c n) c = rstrip s c.
Proof.
  unfold rstrip. rewrite rev_app_distr, rev_repeat, lstrip_repeat. reflexivity.
Qed.

(** The entry URL does not depend on how many separators end the configured
    base URL: none, one or several give the same URL. *)
Theorem game_url_ignores_trailing_separators (base safe_game_name : str) (n : nat) :
  game_url_of (base ++ repeat (chr "/") n) safe_game_name
  = game_url_of base safe_game_name
  /\ game_url_of (rstrip base (chr "/")) safe_game_name
     = game_url_of base safe_game_name.
Proof.
  unfold game_url_of. split.
  - rewrite rstrip_repeat. reflexivity.
  - destruct (rstrip_spec base (chr "/")) as (k & Hk & _).
    rewrite Hk at 2. rewrite rstrip_repeat. reflexivity.
Qed.

(** A usable record of the archive has its turn in the plan. *)
Lemma plan_covers (environ : Environ) (safe_game_name : str) (valid_files : list str)
    (infolist : list ZipInfo) (info : ZipInfo) (entry_path : str) :
  In info infolist -> usable (filename info) = true ->
  entry_path_of valid_files (filename info) = Some entry_path ->
  exists x,
    In x (plan environ safe_game_name valid_files infolist) /\
    forall o, x = Ok o -> Key o = key_of safe_game_name entry_path.
Proof.
  intros Hin Hu Hp.
  assert (exists x, In x (planned environ safe_game_name valid_files info) /\
                    forall o, x = Ok o -> Key o = key_of safe_game_name entry_path)
    as (x & Hx & Hk).
  { unfold planned. rewrite skipped_usable, Hu, Hp. cbn [negb].
    destruct (content info) as [body|e].
    - destruct (R2_BUCKET_NAME environ) as [b|]; eexists; (split; [left; reflexivity|]);
        intros o [= <-]; reflexivity.
    - eexists. split; [left; reflexivity|]. intros o H; discriminate H. }
  exists x. split; [|exact Hk]. unfold plan. apply in_flat_map. eauto.
Qed.

(** The entry URL of a successful answer is the base URL followed by the
    key of [index.html] under the game.  The run has written an object
    under that key if and only if some usable record of the archive has
    [index.html] for published path, that is, lies at the top of the
    archive or directly under the stripped root; validation alone does not
    see to it. *)
Theorem entry_url_object (headers : Headers) (environ : Environ)
    (gameZip : UploadFile) (boto3 : Boto3) (bucket : list S3Object) (body : dict) :
  response (upload headers environ gameZip boto3 bucket) = Return body ->
  exists gameName infolist base objs,
    x_game_name headers = Some gameName /\ gameZip = ZipFile (Ok infolist) /\
    PUBLIC_GAME_URL_BASE environ = Some base /\
    objects (s3 (upload headers environ gameZip boto3 bucket)) = bucket ++ objs /\
    dict_get "gameUrl" body
    = Some (rstrip base (chr "/") ++ "/" ++ key_of (sanitize gameName) "index.html") /\
    ((exists o, In o objs /\ Key o = key_of (sanitize gameName) "index.html") <->
     (exists info,
        In info infolist /\ usable (filename info) = true /\
        entry_path_of (valid_files_of (namelist infolist)) (filename info)
        = Some ("index.html" : str))).
Proof.
  intros H.
  apply upload_return in H
    as (g & infolist & base & objs & (Hg & _) & (Hz & _) & _ & Hb & -> & Hplan & Hs & _).
  exists g, infolist, base, objs. rewrite Hs. cbn [objects].
  repeat (split; [first [assumption | reflexivity]|]).
  split.
  - intros (o & Hin & Hk).
    assert (In (Ok o) (plan environ (sanitize g) (valid_files_of (namelist infolist))
                            infolist)) as Hp
      by (rewrite Hplan; apply in_map; exact Hin).
    apply plan_keys in Hp as (info & p & Hi & Hsk & Hp & Hk' & _).
    exists info. split; [exact Hi|]. split.
    + rewrite skipped_usable in Hsk. destruct (usable (filename info));
        [reflexivity | discriminate].
    + rewrite Hp. f_equal. rewrite Hk' in Hk. unfold key_of in Hk.
      apply app_inv_head in Hk. apply app_inv_head in Hk. exact Hk.
  - intros (info & Hi & Hu & Hp).
    destruct (plan_covers environ (sanitize g) _ _ _ _ Hi Hu Hp) as (x & Hx & Hk).
    rewrite Hplan in Hx. apply in_map_iff in Hx as (o & <- & Ho).
    exists o. split; [exact Ho | apply Hk; reflexivity].
Qed.

Lemma entry_url_object_witness :
  exists gameName infolist base objs,
    x_game_name (Scenario.headers "g") = Some gameName /\
    Scenario.archive ["assets/index.html" : str; "main.js" : str] = ZipFile (Ok infolist) /\
    PUBLIC_GAME_URL_BASE Scenario.environ = Some base /\
    objects (s3 (upload (Scenario.headers "g") Scenario.environ
                   (Scenario.archive ["assets/index.html" : str; "main.js" : str])
                   Scenario.reliable []))
    = [] ++ objs /\
    dict_get "gameUrl" (success "g" "https://games.example/g/index.html")
    = Some (rstrip base (chr "/") ++ "/" ++ key_of (sanitize gameName) "index.html") /\
    ((exists o, In o objs /\ Key o = key_of (sanitize gameName) "index.html") <->
     (exists info,
        In info infolist /\ usable (filename info) = true /\
        entry_path_of (valid_files_of (namelist infolist)) (filename info)
        = Some ("index.html" : str))).
Proof.
  apply (entry_url_object (Scenario.headers "g") Scenario.environ
           (Scenario.archive ["assets/index.html" : str; "main.js" : str])
           Scenario.reliable []).
  vm_compute; reflexivity.
Defined.

(** ** The objects of a successful run *)

(** A plan all of whose turns are objects pairs these objects with the
    usable records, in the order of the archive. *)
Lemma plan_pairs (environ : Environ) (safe_game_name : str) (valid_files : list str)
    (infolist : list ZipInfo) (objs : list S3Object) :
  plan environ safe_game_name valid_files infolist = map (@Ok _) objs ->
  Forall2 (fun info o =>
             exists entry_path,
               entry_path_of valid_files (filename info) = Some entry_path /\
               Key o = key_of safe_game_name entry_path /\
               ContentType o = content_type_of entry_path /\
               content info = Ok (Body o))
          (filter (fun info => usable (filename info)) infolist) objs.
Proof.
  revert objs; induction infolist as [|info rest IH]; intros objs H.
  - destruct objs; [constructor | discriminate H].
  - change (plan environ safe_game_name valid_files (info :: rest))
      with (planned environ safe_game_name valid_files info
            ++ plan environ safe_game_name valid_files rest) in H.
    cbn [filter]. unfold planned in H. rewrite skipped_usable in H.
    destruct (usable (filename info)) eqn:Hu; cbn [negb] in H; [|apply IH; exact H].
    pose proof (usable_entry_published valid_files _ Hu) as Hp.
    destruct (entry_path_of valid_files (filename info)) as [p|] eqn:Hpath; [|congruence].
    destruct (content info) as [body|e] eqn:Hc.
    + destruct (R2_BUCKET_NAME environ) as [b|];
        (destruct objs as [|o objs]; [discriminate H|]);
        cbn [map app] in H; injection H as Ho Hrest; [|discriminate Ho].
      constructor; [|apply IH; exact Hrest].
      exists p. subst o. cbn. auto.
    + destruct objs as [|o objs]; cbn [map app] in H; discriminate H.
Qed.

(** The objects a successful run has added to the bucket are, in the order
    of the archive, one for each usable record, each with the key, the
    content type and the content of its record: nothing is left out, and a
    record listed twice is written twice under one key, the later one
    last. *)
Theorem published_objects_follow_archive (headers : Headers) (environ : Environ)
    (gameZip : UploadFile) (boto3 : Boto3) (bucket : list S3Object) (body : dict) :
  response (upload headers environ gameZip boto3 bucket) = Return body ->
  exists gameName infolist objs,
    x_game_name headers = Some gameName /\ gameZip = ZipFile (Ok infolist) /\
    objects (s3 (upload headers environ gameZip boto3 bucket)) = bucket ++ objs /\
    Forall2 (fun info o =>
               exists entry_path,
                 entry_path_of (valid_files_of (namelist infolist)) (filename info)
                 = Some entry_path /\
                 Key o = key_of (sanitize gameName) entry_path /\
                 ContentType o = content_type_of entry_path /\
                 content info = Ok (Body o))
            (filter (fun info => usable (filename info)) infolist) objs.
Proof.
  intros H.
  apply upload_return in H
    as (g & infolist & base & objs & (Hg & _) & (Hz & _) & _ & _ & _ & Hplan & Hs & _).
  exists g, infolist, objs. rewrite Hs. cbn [objects].
  repeat (split; [first [assumption | reflexivity]|]).
  apply (plan_pairs environ). exact Hplan.
Qed.

Lemma published_objects_follow_archive_witness :
  exists gameName infolist objs,
    x_game_name (Scenario.headers "g") = Some gameName /\
    Scenario.archive Scenario.scenario_B = ZipFile (Ok infolist) /\
    objects (s3 (upload (Scenario.headers "g") Scenario.environ
                   (Scenario.archive Scenario.scenario_B) Scenario.reliable []))
    = [] ++ objs /\
    Forall2 (fun info o =>
               exists entry_path,
                 entry_path_of (valid_files_of (namelist infolist)) (filename info)
                 = Some entry_path /\
                 Key o = key_of (sanitize gameName) entry_path /\
                 ContentType o = content_type_of entry_path /\
                 content info = Ok (Body o))
            (filter (fun info => usable (filename info)) infolist) objs.
Proof.
  apply (published_objects_follow_archive (Scenario.headers "g") Scenario.environ
           (Scenario.archive Scenario.scenario_B) Scenario.reliable []
           (success "g" "https://games.example/g/index.html")).
  vm_compute; reflexivity.
Defined.
